(** * ZeroSight: the link classifier of [app.py]

    A shallow embedding of the Flask backend's decision logic
    ([parse_hostname], [classify_link], [api_check_link]) together with the
    pieces of the Python standard library it calls ([str] methods, the two
    regular expressions, [urllib.parse.urlparse]).

    Conventions.
    - A Python [str] is a [string]; a character is an [ascii], read as the
      code point U+0000..U+00FF.  The character tables below ([isspace],
      [lower], [\d], [\w]) follow Python's Unicode database on that range.
    - Python integers are [Z] (scores, the clock) or [nat] (lengths, counts).
    - Code that may raise is written in the [result] monad; [try_except]
      is [try: ... except Exception: ...].
    - A [dict] with string keys is a [gmap string _]. *)

From Stdlib Require Import String Ascii List ZArith Lia Bool.
From stdpp Require Import base option gmap strings.
Import ListNotations.

(** ** Exceptions *)

(** The subclasses of [Exception] that the code or the library can raise. *)
Inductive exn : Type :=
| ValueError
| IndexError
| TypeError
| AttributeError
| HTTPException (status : Z).

Inductive result (A : Type) : Type :=
| Return (a : A)
| Raise (e : exn).
Arguments Return {A} a.
Arguments Raise {A} e.

#[global] Instance result_ret : MRet result := fun A a => Return a.
#[global] Instance result_bind : MBind result := fun A B f m =>
  match m with
  | Return a => f a
  | Raise e => Raise e
  end.

(** [try: body  except Exception: handler] *)
Definition try_except {A} (body : result A) (handler : exn -> result A) : result A :=
  match body with
  | Return a => Return a
  | Raise e => handler e
  end.

(** ** Characters *)

Module Chr.

Definition ord (c : ascii) : N := N_of_ascii c.

Definition between (lo hi : N) (c : ascii) : bool :=
  ((lo <=? ord c) && (ord c <=? hi))%N.

(** [str.isspace] on one character: TAB..CR, FS..US, SPACE, NEL, NBSP. *)
Definition isspace (c : ascii) : bool :=
  between 9 13 c || between 28 32 c || (ord c =? 133)%N || (ord c =? 160)%N.

(** ASCII classes. *)
Definition is_upper (c : ascii) : bool := between 65 90 c.
Definition is_lower (c : ascii) : bool := between 97 122 c.
Definition is_ascii_alpha (c : ascii) : bool := is_upper c || is_lower c.
Definition is_ascii_digit (c : ascii) : bool := between 48 57 c.
Definition is_hex (c : ascii) : bool :=
  is_ascii_digit c || between 65 70 c || between 97 102 c.

(** [\d] of a [str] pattern: the decimal digits; below U+0100 these are 0-9. *)
Definition is_digit (c : ascii) : bool := is_ascii_digit c.

(** [\w] of a [str] pattern: alphanumeric or underscore.  Below U+0100 the
    alphanumerics are the ASCII ones, the ordinal indicators, micro,
    superscript digits, vulgar fractions and the Latin-1 letters. *)
Definition is_word (c : ascii) : bool :=
  is_ascii_digit c || is_ascii_alpha c || (ord c =? 95)%N
  || (ord c =? 170)%N || (ord c =? 178)%N || (ord c =? 179)%N
  || (ord c =? 181)%N || (ord c =? 185)%N || (ord c =? 186)%N
  || between 188 190 c
  || between 192 214 c || between 216 246 c || between 248 255 c.

(** [str.lower] on one character: A-Z and the Latin-1 capitals
    (U+00C0..U+00DE without the multiplication sign). *)
Definition lower (c : ascii) : ascii :=
  if is_upper c || (between 192 222 c && negb (ord c =? 215)%N)
  then ascii_of_N (ord c + 32)
  else c.

Definition eqb (a b : ascii) : bool := Ascii.eqb a b.

End Chr.

(** ** The [str] methods the program uses *)

Module Str.

Definition len (s : string) : nat := String.length s.

(** [bool(s)] *)
Definition truthy (s : string) : bool :=
  match s with
  | EmptyString => false
  | String _ _ => true
  end.

(** [s.lower()] *)
Fixpoint lower (s : string) : string :=
  match s with
  | EmptyString => EmptyString
  | String c s' => String (Chr.lower c) (lower s')
  end.

(** [s.lstrip()], [s.rstrip()], [s.strip()] *)
Fixpoint lstrip (s : string) : string :=
  match s with
  | EmptyString => EmptyString
  | String c s' => if Chr.isspace c then lstrip s' else s
  end.

Fixpoint rstrip (s : string) : string :=
  match s with
  | EmptyString => EmptyString
  | String c s' =>
      match rstrip s' with
      | EmptyString => if Chr.isspace c then EmptyString else String c EmptyString
      | r => String c r
      end
  end.

Definition strip (s : string) : string := rstrip (lstrip s).

(** [s.startswith(p)] *)
Fixpoint startswith (s p : string) {struct p} : bool :=
  match p, s with
  | EmptyString, _ => true
  | String a p', String b s' => Chr.eqb a b && startswith s' p'
  | String _ _, EmptyString => false
  end.

(** [needle in hay] *)
Fixpoint contains (needle hay : string) : bool :=
  startswith hay needle ||
  match hay with
  | EmptyString => false
  | String _ hay' => contains needle hay'
  end.

(** [s.endswith(p)] *)
Definition endswith (s p : string) : bool :=
  (len p <=? len s)%nat &&
  String.eqb (String.substring (len s - len p) (len p) s) p.

(** [s.count(c)] for a one-character [c] *)
Fixpoint count (c : ascii) (s : string) : nat :=
  match s with
  | EmptyString => 0
  | String a s' => (if Chr.eqb a c then 1 else 0) + count c s'
  end.

(** Splitting at every character that satisfies [sep]; the result always
    has at least one piece, and empty pieces are kept. *)
Fixpoint split_on (sep : ascii -> bool) (s : string) : list string :=
  match s with
  | EmptyString => [EmptyString]
  | String c s' =>
      if sep c then EmptyString :: split_on sep s'
      else match split_on sep s' with
           | piece :: rest => String c piece :: rest
           | [] => [String c EmptyString]
           end
  end.

(** [s.split(c)] for a one-character separator [c] *)
Definition split (c : ascii) (s : string) : list string :=
  split_on (Chr.eqb c) s.

(** [sep.join(l)] *)
Definition join (sep : string) (l : list string) : string := String.concat sep l.

(** [s.partition(c)]: the part before the first [c], whether [c] was
    found, the part after it. *)
Fixpoint partition (c : ascii) (s : string) : string * bool * string :=
  match s with
  | EmptyString => (EmptyString, false, EmptyString)
  | String a s' =>
      if Chr.eqb a c then (EmptyString, true, s')
      else let '(before, found, after) := partition c s' in
           (String a before, found, after)
  end.

(** [c in s] for a one-character [c] *)
Fixpoint has (c : ascii) (s : string) : bool :=
  match s with
  | EmptyString => false
  | String a s' => Chr.eqb a c || has c s'
  end.

(** [s.rpartition(c)]: the part before the last [c], whether [c] was
    found, the part after it; nothing before and all of [s] after when
    there is none. *)
Fixpoint rpartition (c : ascii) (s : string) : string * bool * string :=
  match s with
  | EmptyString => (EmptyString, false, EmptyString)
  | String a s' =>
      if has c s' then
        let '(before, found, after) := rpartition c s' in
        (String a before, found, after)
      else if Chr.eqb a c then (EmptyString, true, s')
      else (EmptyString, false, s)
  end.

(** [s.lstrip(chars)] *)
Fixpoint lstrip_chars (p : ascii -> bool) (s : string) : string :=
  match s with
  | EmptyString => EmptyString
  | String c s' => if p c then lstrip_chars p s' else s
  end.

(** [s.replace(c, empty)]: drop every occurrence of [c]. *)
Fixpoint remove (c : ascii) (s : string) : string :=
  match s with
  | EmptyString => EmptyString
  | String a s' => if Chr.eqb a c then remove c s' else String a (remove c s')
  end.

(** [all(p(c) for c in s)] *)
Fixpoint all (p : ascii -> bool) (s : string) : bool :=
  match s with
  | EmptyString => true
  | String c s' => p c && all p s'
  end.

End Str.

(** ** Regular expressions

    The fragment of [re] syntax that [IP_RE] and the port pattern use, with
    a backtracking matcher in continuation style.  A matcher receives the
    character before the current position (for [\b]), the rest of the
    subject, and the continuation to run on what it leaves. *)

Module re.

Inductive regex : Type :=
| Lit (c : ascii)                    (* a literal character *)
| Digit                              (* \d *)
| WordBoundary                       (* \b *)
| Seq (r1 r2 : regex)                (* r1 r2 *)
| Repeat (lo hi : nat) (r : regex).  (* r{lo,hi} *)

Definition cont : Type := option ascii -> string -> bool.
Definition matcher : Type := option ascii -> string -> cont -> bool.

Definition one (p : ascii -> bool) : matcher := fun _ s k =>
  match s with
  | String c s' => if p c then k (Some c) s' else false
  | EmptyString => false
  end.

Definition is_word_at (c : option ascii) : bool :=
  match c with
  | Some a => Chr.is_word a
  | None => false
  end.

Definition peek (s : string) : option ascii :=
  match s with
  | String c _ => Some c
  | EmptyString => None
  end.

Definition boundary : matcher := fun prev s k =>
  if xorb (is_word_at prev) (is_word_at (peek s)) then k prev s else false.

(** exactly [n] times *)
Fixpoint exactly (m : matcher) (n : nat) : matcher := fun prev s k =>
  match n with
  | O => k prev s
  | S n' => m prev s (fun p s' => exactly m n' p s' k)
  end.

(** at most [n] times, longest first *)
Fixpoint upto (m : matcher) (n : nat) : matcher := fun prev s k =>
  match n with
  | O => k prev s
  | S n' => m prev s (fun p s' => upto m n' p s' k) || k prev s
  end.

Fixpoint compile (r : regex) : matcher :=
  match r with
  | Lit c => one (Chr.eqb c)
  | Digit => one Chr.is_digit
  | WordBoundary => boundary
  | Seq r1 r2 => fun prev s k => compile r1 prev s (fun p s' => compile r2 p s' k)
  | Repeat lo hi r =>
      let m := compile r in
      fun prev s k => exactly m lo prev s (fun p s' => upto m (hi - lo) p s' k)
  end.

(** A match that starts at the current position. *)
Definition match_here (r : regex) (prev : option ascii) (s : string) : bool :=
  compile r prev s (fun _ _ => true).

Fixpoint search_from (r : regex) (prev : option ascii) (s : string) : bool :=
  match_here r prev s ||
  match s with
  | EmptyString => false
  | String c s' => search_from r (Some c) s'
  end.

(** [bool(re.search(r, s))] *)
Definition search (r : regex) (s : string) : bool := search_from r None s.

(** [re.split(r"[...]", s)] for a pattern that is one character class *)
Definition split (cls : ascii -> bool) (s : string) : list string :=
  Str.split_on cls s.

(** A pattern without [\b]. *)
Fixpoint boundary_free (r : regex) : bool :=
  match r with
  | Lit _ | Digit => true
  | WordBoundary => false
  | Seq r1 r2 => boundary_free r1 && boundary_free r2
  | Repeat _ _ r => boundary_free r
  end.

(** [k'] accepts, with [t] appended to the subject, whatever [k] accepts. *)
Definition extends (t : string) (k k' : cont) : Prop :=
  forall p s, k p s = true -> k' p (s +:+ t) = true.

(** A matcher whose matches survive appending to the subject. *)
Definition stable (m : matcher) : Prop :=
  forall t prev s k k', extends t k k' -> m prev s k = true -> m prev (s +:+ t) k' = true.

End re.

(** ** [ipaddress.ip_address], as far as [urllib.parse] needs it: which
    kind of address a string is, or [ValueError]. *)

Module ipaddress.

Inductive version : Type := IPv4 | IPv6.

(** [int(s, 10)] for a string of ASCII digits *)
Definition int10 (s : string) : N :=
  fold_left (fun acc c => (10 * acc + (Chr.ord c - 48))%N) (list_ascii_of_string s) 0%N.

(** [_BaseV4._parse_octet] succeeds *)
Definition parse_octet_ok (octet : string) : bool :=
  Str.truthy octet
  && Str.all Chr.is_ascii_digit octet
  && (Str.len octet <=? 3)%nat
  && negb (negb (String.eqb octet "0") && Str.startswith octet "0")
  && (int10 octet <=? 255)%N.

(** [IPv4Address(s)] succeeds *)
Definition is_ipv4 (s : string) : bool :=
  negb (Str.has "/" s)
  && Str.truthy s
  && (let octets := Str.split "." s in
      (length octets =? 4)%nat && forallb parse_octet_ok octets).

(** [_BaseV6._parse_hextet] succeeds *)
Definition parse_hextet_ok (hextet : string) : bool :=
  Str.all Chr.is_hex hextet && (Str.len hextet <=? 4)%nat && Str.truthy hextet.

(** The positions [1 .. len(parts) - 2] that hold an empty part. *)
Definition inner_empties (parts : list string) : list nat :=
  List.filter (fun i => negb (Str.truthy (List.nth i parts "x"))) (List.seq 1 (length parts - 2)).

(** [_BaseV6._ip_int_from_string] succeeds *)
Definition ip6_groups_ok (ip_str : string) : bool :=
  Str.truthy ip_str &&
  let parts := Str.split ":" ip_str in
  (3 <=? length parts)%nat &&
  let tail := List.last parts EmptyString in
  (* an IPv4-style suffix is replaced by the two hextets it denotes *)
  let suffix_ok := if Str.has "." tail then is_ipv4 tail else true in
  let parts := if Str.has "." tail then removelast parts ++ ["0"; "0"] else parts in
  suffix_ok &&
  (length parts <=? 9)%nat &&
  let n := length parts in
  let first_empty := negb (Str.truthy (hd EmptyString parts)) in
  let last_empty := negb (Str.truthy (List.last parts EmptyString)) in
  match inner_empties parts with
  | _ :: _ :: _ => false
  | [skip_index] =>
      let parts_hi := skip_index in
      let parts_lo := (n - skip_index - 1)%nat in
      let hi_ok := if first_empty then (parts_hi - 1 =? 0)%nat else true in
      let parts_hi := if first_empty then (parts_hi - 1)%nat else parts_hi in
      let lo_ok := if last_empty then (parts_lo - 1 =? 0)%nat else true in
      let parts_lo := if last_empty then (parts_lo - 1)%nat else parts_lo in
      hi_ok && lo_ok
      && (parts_hi + parts_lo <? 8)%nat
      && forallb parse_hextet_ok (firstn parts_hi parts)
      && forallb parse_hextet_ok (skipn (n - parts_lo) parts)
  | [] =>
      (n =? 8)%nat && negb first_empty && negb last_empty
      && forallb parse_hextet_ok parts
  end.

(** [IPv6Address(s)] succeeds *)
Definition is_ipv6 (s : string) : bool :=
  negb (Str.has "/" s) &&
  let '(addr, sep, scope_id) := Str.partition "%" s in
  (if sep then Str.truthy scope_id && negb (Str.has "%" scope_id) else true)
  && ip6_groups_ok addr.

Definition ip_address (address : string) : result version :=
  if is_ipv4 address then Return IPv4
  else if is_ipv6 address then Return IPv6
  else Raise ValueError.

End ipaddress.

(** ** [urllib.parse]: [urlsplit], [urlparse] and the [hostname] property
    (CPython 3.11) *)

Module urllib.

Record ParseResult : Type := {
  scheme : string;
  netloc : string;
  path : string;
  params : string;
  query : string;
  fragment : string
}.

(** [_WHATWG_C0_CONTROL_OR_SPACE] *)
Definition c0_control_or_space (c : ascii) : bool := (Chr.ord c <=? 32)%N.

(** [scheme_chars] *)
Definition scheme_char (c : ascii) : bool :=
  Chr.is_ascii_alpha c || Chr.is_ascii_digit c
  || Chr.eqb c "+" || Chr.eqb c "-" || Chr.eqb c ".".

Definition uses_params : list string :=
  [EmptyString; "ftp"; "hdl"; "prospero"; "http"; "imap"; "https"; "shttp"; "rtsp";
   "rtspu"; "sip"; "sips"; "mms"; "sftp"; "tel"].

(** [url[n:]] *)
Fixpoint drop (n : nat) (s : string) : string :=
  match n, s with
  | S n', String _ s' => drop n' s'
  | _, _ => s
  end.

(** The part of [s] before the first of [/ ? #], and the rest from there. *)
Fixpoint until_delim (s : string) : string * string :=
  match s with
  | EmptyString => (EmptyString, EmptyString)
  | String c s' =>
      if Chr.eqb c "/" || Chr.eqb c "?" || Chr.eqb c "#" then (EmptyString, s)
      else let '(dom, rest) := until_delim s' in (String c dom, rest)
  end.

(** [_splitnetloc(url, 2)] *)
Definition _splitnetloc (url : string) : string * string := until_delim (drop 2 url).

(** [re.match(r"\Av[a-fA-F0-9]+\..+\Z", hostname)] for a [hostname] that
    starts with [v] *)
Definition ipvfuture_ok (hostname : string) : bool :=
  let '(digits, dot, rest) := Str.partition "." (drop 1 hostname) in
  Str.truthy digits && Str.all Chr.is_hex digits
  && dot && Str.truthy rest && negb (Str.has "010" rest).

Definition _check_bracketed_host (hostname : string) : result unit :=
  if Str.startswith hostname "v" then
    if ipvfuture_ok hostname then Return tt else Raise ValueError
  else
    ip ← ipaddress.ip_address hostname;
    match ip with
    | ipaddress.IPv4 => Raise ValueError
    | ipaddress.IPv6 => Return tt
    end.

Definition _check_bracketed_netloc (netloc : string) : result unit :=
  let '(_, _, hostname_and_port) := Str.rpartition "@" netloc in
  let '(before_bracket, have_open_br, bracketed) := Str.partition "[" hostname_and_port in
  if have_open_br then
    if Str.truthy before_bracket then Raise ValueError
    else
      let '(hostname, _, port) := Str.partition "]" bracketed in
      if Str.truthy port && negb (Str.startswith port ":") then Raise ValueError
      else _check_bracketed_host hostname
  else
    let '(hostname, _, port) := Str.partition ":" hostname_and_port in
    _check_bracketed_host hostname.

(** [_checknetloc] rejects a netloc in which NFKC normalisation would
    introduce one of [/ ? # @ :].  No character below U+0100 normalises to
    a string with one of these, so on this alphabet the check passes. *)
Definition _checknetloc (netloc : string) : result unit := Return tt.

(** [urlsplit(url)], with the default [scheme=''] and [allow_fragments=True];
    the result is [(scheme, netloc, url, query, fragment)]. *)
Definition urlsplit (url : string)
  : result (string * string * string * string * string) :=
  let url := Str.lstrip_chars c0_control_or_space url in
  let url := Str.remove "010" (Str.remove "013" (Str.remove "009" url)) in
  let '(before, found, after) := Str.partition ":" url in
  let '(scheme, url) :=
    match before with
    | String c0 _ =>
        if found && Chr.is_ascii_alpha c0 && Str.all scheme_char before
        then (Str.lower before, after)
        else (EmptyString, url)
    | EmptyString => (EmptyString, url)
    end in
  '(netloc, url) ←
    (if Str.startswith url "//" then
       let '(netloc, url) := _splitnetloc url in
       if (Str.has "[" netloc && negb (Str.has "]" netloc))
          || (Str.has "]" netloc && negb (Str.has "[" netloc))
       then Raise ValueError
       else
         _ ← (if Str.has "[" netloc && Str.has "]" netloc
              then _check_bracketed_netloc netloc else Return tt);
         Return (netloc, url)
     else Return (EmptyString, url));
  let '(url, fragment) :=
    if Str.has "#" url
    then let '(u, _, f) := Str.partition "#" url in (u, f)
    else (url, EmptyString) in
  let '(url, query) :=
    if Str.has "?" url
    then let '(u, _, q) := Str.partition "?" url in (u, q)
    else (url, EmptyString) in
  _ ← _checknetloc netloc;
  Return (scheme, netloc, url, query, fragment).

Definition _splitparams (url : string) : string * string :=
  if Str.has "/" url then
    let '(dir, _, leaf) := Str.rpartition "/" url in
    let '(name, found, params) := Str.partition ";" leaf in
    if found then (dir +:+ "/" +:+ name, params) else (url, EmptyString)
  else
    let '(name, _, params) := Str.partition ";" url in (name, params).

Definition urlparse (url : string) : result ParseResult :=
  '(scheme, netloc, url, query, fragment) ← urlsplit url;
  let '(url, params) :=
    if existsb (String.eqb scheme) uses_params && Str.has ";" url
    then _splitparams url
    else (url, EmptyString) in
  Return {| scheme := scheme; netloc := netloc; path := url; params := params;
            query := query; fragment := fragment |}.

(** [_hostinfo]: the host name and the port text, [None] for an empty port *)
Definition _hostinfo (r : ParseResult) : string * option string :=
  let '(_, _, hostinfo) := Str.rpartition "@" (netloc r) in
  let '(_, have_open_br, bracketed) := Str.partition "[" hostinfo in
  let '(hostname, port) :=
    if have_open_br then
      let '(hostname, _, port) := Str.partition "]" bracketed in
      let '(_, _, port) := Str.partition ":" port in
      (hostname, port)
    else
      let '(hostname, _, port) := Str.partition ":" hostinfo in
      (hostname, port) in
  (hostname, if Str.truthy port then Some port else None).

(** The [hostname] property; [None] when the netloc has no host. *)
Definition hostname (r : ParseResult) : option string :=
  let hostname := fst (_hostinfo r) in
  if negb (Str.truthy hostname) then None
  else
    let '(hostname, percent, zone) := Str.partition "%" hostname in
    Some (Str.lower hostname +:+ (if percent then "%" else EmptyString) +:+ zone).

End urllib.

(** ** Python values and sequences *)

(** [l[i]] with Python's indexing: a negative [i] counts from the end;
    out of range raises [IndexError]. *)
Definition getitem {A} (l : list A) (i : Z) : result A :=
  let n := Z.of_nat (length l) in
  let j := (if i <? 0 then n + i else i)%Z in
  if ((j <? 0) || (n <=? j))%Z then Raise IndexError
  else match l !! Z.to_nat j with
       | Some x => Return x
       | None => Raise IndexError
       end.

(** [for x in l: if cond(x): body(x); break] *)
Fixpoint for_break {A S} (l : list A) (cond : A -> bool) (body : A -> S -> S) (st : S) : S :=
  match l with
  | [] => st
  | x :: l' => if cond x then body x st else for_break l' cond body st
  end.

(** What [request.get_json()] can return: the Python value of a JSON text
    (numbers with a fraction are left out; the handler treats every
    non-string alike). *)
#[warnings="-register-all"]
Inductive pyvalue : Type :=
| PyNone
| PyBool (b : bool)
| PyInt (z : Z)
| PyStr (s : string)
| PyList (l : list pyvalue)
| PyDict (d : gmap string pyvalue).

(** [bool(v)] *)
Definition truthy (v : pyvalue) : bool :=
  match v with
  | PyNone => false
  | PyBool b => b
  | PyInt z => negb (z =? 0)%Z
  | PyStr s => Str.truthy s
  | PyList l => match l with [] => false | _ :: _ => true end
  | PyDict d => negb (bool_decide (d = ∅))
  end.

(** [a or b] *)
Definition py_or (a b : pyvalue) : pyvalue := if truthy a then a else b.

(** [v.get(key, default)]: only a [dict] has the method. *)
Definition py_get (v : pyvalue) (key : string) (default : pyvalue) : result pyvalue :=
  match v with
  | PyDict d => Return (match d !! key with Some x => x | None => default end)
  | _ => Raise AttributeError
  end.

(** [v.strip()]: only a [str] has the method. *)
Definition py_strip (v : pyvalue) : result string :=
  match v with
  | PyStr s => Return (Str.strip s)
  | _ => Raise AttributeError
  end.

(** ** Config / tunable lists *)

Definition MAX_SAMPLES : nat := 1000.

Definition SUSPICIOUS_HOSTINGS : list string :=
  ["trycloudflare.com"; "workers.dev"; "pages.dev"; "vercel.app";
   "netlify.app"; "ngrok.io"; "herokuapp.com"; "github.io"; "pagekite.me"].

Definition BRAND_TOKENS : list string :=
  ["instagram"; "paypal"; "google"; "facebook"; "amazon"; "microsoft";
   "sbi"; "hdfc"; "icici"; "bank"; "upi"; "gmail"; "otp"].

Definition SHORTENERS : list string :=
  ["bit.ly"; "tinyurl"; "t.co"; "is.gd"; "rb.gy"; "ow.ly"].

(** [\b\d{1,3}(?:\.\d{1,3}){3}\b] *)
Definition IP_RE : re.regex :=
  re.Seq re.WordBoundary
    (re.Seq (re.Repeat 1 3 re.Digit)
       (re.Seq (re.Repeat 3 3 (re.Seq (re.Lit ".") (re.Repeat 1 3 re.Digit)))
          re.WordBoundary)).

(** [:\d{2,5}] *)
Definition PORT_RE : re.regex := re.Seq (re.Lit ":") (re.Repeat 2 5 re.Digit).

(** The class [[-_.]] *)
Definition token_sep (c : ascii) : bool :=
  Chr.eqb c "-" || Chr.eqb c "_" || Chr.eqb c ".".

Definition PHISH_KEYWORDS : list string :=
  ["verify"; "login"; "reset"; "auth"; "secure"; "confirm"; "payment";
   "account"; "signin"; "password"; "otp"].

(** The dict [classify_link] returns. *)
Record ClassificationResult : Type := {
  url : string;
  host : string;
  score : Z;
  level : string;
  reasons : list string;
  ts : Z
}.

(** The process state of the service: the global [SAMPLES], and a ghost
    log of the arguments [classify_link] was called with by the handler. *)
Record server : Type := {
  SAMPLES : list ClassificationResult;
  classified : list string
}.

(** An inbound request, as the handler sees it: what [request.get_json()]
    gives, a value or the HTTP error Flask aborts with. *)
Record request : Type := {
  get_json : result pyvalue
}.

(** [jsonify(result)] *)
Definition jsonify (r : ClassificationResult) : pyvalue :=
  PyDict (<["url" := PyStr (url r)]>
         (<["host" := PyStr (host r)]>
         (<["score" := PyInt (score r)]>
         (<["level" := PyStr (level r)]>
         (<["reasons" := PyList (PyStr <$> reasons r)]>
         (<["ts" := PyInt (ts r)]> ∅)))))).

(** ** Helpers and the core classifier

    [urlparse] is the library function the module imports; the engine is
    stated for any behaviour of it, and [urllib.urlparse] above is the
    instance used on concrete inputs.  [clock] is the reading of
    [int(time.time())] during the call. *)

Section Engine.

Variable urlparse : string -> result urllib.ParseResult.

(** [h or empty] for the [hostname] property *)
Definition or_empty (h : option string) : string :=
  match h with
  | Some s => if Str.truthy s then s else EmptyString
  | None => EmptyString
  end.

Definition parse_hostname (url : string) : result string :=
  (* for a str, [url or empty] is [url] *)
  let u := Str.strip url in
  if negb (Str.truthy u) then Return EmptyString
  else
    try_except
      (parsed ← urlparse (if Str.contains "://" u then u else "https://" +:+ u);
       Return (Str.lower (or_empty (urllib.hostname parsed))))
      (fun _ =>
         first ← getitem (Str.split "/" u) 0;
         Return (Str.lower first)).

Definition now_ts (clock : Z) : Z := clock.

Definition classify_link (url : string) (clock : Z) : result ClassificationResult :=
  host ← parse_hostname url;
  let '(score, reasons) := (0%Z, @nil string) in
  (* 1) direct IP in host *)
  let '(score, reasons) :=
    if re.search IP_RE host
    then ((score + 40)%Z,
          reasons ++ ["Direct IP address used in host (not a normal domain)"])
    else (score, reasons) in
  (* 2) explicit port *)
  let '(score, reasons) :=
    if re.search PORT_RE url
    then ((score + 12)%Z,
          reasons ++ ["Explicit port present in URL (uncommon for legitimate sites)"])
    else (score, reasons) in
  (* 3) ephemeral / third-party hosting platforms *)
  let '(score, reasons) :=
    for_break SUSPICIOUS_HOSTINGS
      (fun eh => String.eqb host eh || Str.endswith host ("." +:+ eh))
      (fun eh '(score, reasons) =>
         ((score + 35)%Z,
          reasons ++ ["Hosted on ephemeral/third-party platform: " +:+ eh]))
      (score, reasons) in
  (* 4) subdomain analysis *)
  let labels := if Str.truthy host then Str.split "." host else [] in
  '(score, reasons) ←
    (if (3 <=? length labels)%nat then
       let sub := Str.join "." (firstn (length labels - 2) labels) in
       let '(score, reasons) :=
         if (30 <? Str.len sub)%nat
         then ((score + 15)%Z,
               reasons ++ ["Very long subdomain (unusually long host label)"])
         else (score, reasons) in
       let '(score, reasons) :=
         if (2 <=? Str.count "-" sub)%nat
         then ((score + 12)%Z,
               reasons ++ ["Multiple hyphens in subdomain (common in phishing hosts)"])
         else (score, reasons) in
       let tokens := List.filter Str.truthy (re.split token_sep sub) in
       let '(score, reasons) :=
         if (3 <=? length tokens)%nat
         then ((score + 18)%Z,
               reasons ++ ["Multi-word / token-rich subdomain (likely not a normal brand hostname)"])
         else (score, reasons) in
       sld ← (if (2 <=? length labels)%nat then getitem labels (-2) else Return EmptyString);
       let low_sub := Str.lower sub in
       Return
         (for_break BRAND_TOKENS
            (fun b => Str.contains b low_sub && negb (String.eqb b sld))
            (fun b '(score, reasons) =>
               ((score + 40)%Z,
                reasons ++ ["Brand impersonation detected: '" +:+ b +:+
                            "' appears in subdomain while parent domain is not '" +:+
                            b +:+ "'"]))
            (score, reasons))
     else Return (score, reasons));
  (* 5) punycode / IDN tricks *)
  let '(score, reasons) :=
    if Str.contains "xn--" host
    then ((score + 25)%Z,
          reasons ++ ["Punycode/IDN detected (possible homoglyph / homograph attack)"])
    else (score, reasons) in
  (* 6) known link shorteners *)
  let '(score, reasons) :=
    for_break SHORTENERS
      (fun s => Str.contains s (Str.lower url))
      (fun s '(score, reasons) =>
         ((score + 30)%Z, reasons ++ ["Uses known link shortener: " +:+ s]))
      (score, reasons) in
  (* 7) phishing keywords in path or query *)
  let '(score, reasons) :=
    for_break PHISH_KEYWORDS
      (fun k => Str.contains k (Str.lower url))
      (fun k '(score, reasons) =>
         ((score + 15)%Z,
          reasons ++ ["Contains phishing-related keyword: '" +:+ k +:+ "'"]))
      (score, reasons) in
  (* clamp score *)
  let score := Z.max 0 (Z.min 100 score) in
  let level := "SAFE" in
  let level :=
    if (70 <=? score)%Z then "HIGH"
    else if (35 <=? score)%Z then "MEDIUM"
    else level in
  Return {| url := url; host := host; score := score; level := level;
            reasons := reasons; ts := now_ts clock |}.

(** [POST /api/check_link]: the response body and status, or the exception
    that leaves the handler, and the state afterwards. *)
Definition api_check_link (req : request) (clock : Z) (st : server)
  : result (pyvalue * Z) * server :=
  match (payload ← get_json req;
         let payload := py_or payload (PyDict ∅) in
         v ← py_get payload "url" (PyStr EmptyString);
         py_strip v) with
  | Raise e => (Raise e, st)
  | Return url =>
      if negb (Str.truthy url) then
        (Return (PyDict {["error" := PyStr "missing url"]}, 400%Z), st)
      else
        let st := {| SAMPLES := SAMPLES st; classified := classified st ++ [url] |} in
        match classify_link url clock with
        | Raise e => (Raise e, st)
        | Return result =>
            (* store sample *)
            let samples := SAMPLES st ++ [result] in
            let samples :=
              if (MAX_SAMPLES <? length samples)%nat then tl samples else samples in
            (Return (jsonify result, 200%Z),
             {| SAMPLES := samples; classified := classified st |})
        end
  end.

End Engine.

(** ** The rule table of the specification

    Section 4.2 of the specification describes the classifier as ten
    evaluators, each giving zero or one (score delta, reason) pair from the
    raw URL and the normalised host, and section 4.3 as an aggregator that
    sums, clamps and thresholds.  These definitions follow that text (with
    the reason texts of the code); the theorems below compare them with
    [classify_link]. *)

Module Rules.

Definition contribution : Type := Z * string.
Definition rule : Type := string -> string -> option contribution.

Definition when (c : bool) (delta : Z) (reason : string) : option contribution :=
  if c then Some (delta, reason) else None.

(** The first candidate of a configured set that matches. *)
Definition first_match (candidates : list string) (p : string -> bool)
    (delta : Z) (reason : string -> string) : option contribution :=
  match List.find p candidates with
  | Some x => Some (delta, reason x)
  | None => None
  end.

Definition labels_of (host : string) : list string :=
  if Str.truthy host then Str.split "." host else [].

(** The host has at least three dot-separated labels. *)
Definition has_subdomain (host : string) : bool := (3 <=? length (labels_of host))%nat.

(** All labels except the last two. *)
Definition subdomain (host : string) : string :=
  Str.join "." (firstn (length (labels_of host) - 2) (labels_of host)).

(** The label immediately before the top-level domain. *)
Definition sld (host : string) : string :=
  List.nth (length (labels_of host) - 2) (labels_of host) EmptyString.

Definition rule1 : rule := fun _ host =>
  when (re.search IP_RE host) 40
    "Direct IP address used in host (not a normal domain)".

Definition rule2 : rule := fun url _ =>
  when (re.search PORT_RE url) 12
    "Explicit port present in URL (uncommon for legitimate sites)".

Definition rule3 : rule := fun _ host =>
  first_match SUSPICIOUS_HOSTINGS
    (fun eh => String.eqb host eh || Str.endswith host ("." +:+ eh)) 35
    (fun eh => "Hosted on ephemeral/third-party platform: " +:+ eh).

Definition rule4a : rule := fun _ host =>
  when (has_subdomain host && (30 <? Str.len (subdomain host))%nat) 15
    "Very long subdomain (unusually long host label)".

Definition rule4b : rule := fun _ host =>
  when (has_subdomain host && (2 <=? Str.count "-" (subdomain host))%nat) 12
    "Multiple hyphens in subdomain (common in phishing hosts)".

Definition rule4c : rule := fun _ host =>
  when (has_subdomain host &&
        (3 <=? length (List.filter Str.truthy (re.split token_sep (subdomain host))))%nat) 18
    "Multi-word / token-rich subdomain (likely not a normal brand hostname)".

Definition rule4d : rule := fun _ host =>
  if has_subdomain host then
    first_match BRAND_TOKENS
      (fun b => Str.contains b (Str.lower (subdomain host)) && negb (String.eqb b (sld host))) 40
      (fun b => "Brand impersonation detected: '" +:+ b +:+
                "' appears in subdomain while parent domain is not '" +:+ b +:+ "'")
  else None.

Definition rule5 : rule := fun _ host =>
  when (Str.contains "xn--" host) 25
    "Punycode/IDN detected (possible homoglyph / homograph attack)".

Definition rule6 : rule := fun url _ =>
  first_match SHORTENERS (fun s => Str.contains s (Str.lower url)) 30
    (fun s => "Uses known link shortener: " +:+ s).

Definition rule7 : rule := fun url _ =>
  first_match PHISH_KEYWORDS (fun k => Str.contains k (Str.lower url)) 15
    (fun k => "Contains phishing-related keyword: '" +:+ k +:+ "'").

(** The evaluators in their fixed order, with their numbers in the table. *)
Definition RULES : list (string * rule) :=
  [("1", rule1); ("2", rule2); ("3", rule3); ("4a", rule4a); ("4b", rule4b);
   ("4c", rule4c); ("4d", rule4d); ("5", rule5); ("6", rule6); ("7", rule7)].

Definition ORDER : list string := fst <$> RULES.

(** The rules that fire on [url] with normalised [host], each with its
    contribution, in evaluation order. *)
Definition fired (url host : string) : list (string * contribution) :=
  omap (fun '(id, r) => match r url host with
                        | Some c => Some (id, c)
                        | None => None
                        end) RULES.

Definition fired_ids (url host : string) : list string := fst <$> fired url host.
Definition deltas (url host : string) : list Z := (fun x => fst (snd x)) <$> fired url host.
Definition texts (url host : string) : list string := (fun x => snd (snd x)) <$> fired url host.

Definition sum (l : list Z) : Z := fold_right Z.add 0%Z l.

(** Adding one evaluator's outcome to the running score and reasons. *)
Definition step (o : option contribution) (st : Z * list string) : Z * list string :=
  match o with
  | Some (delta, reason) => ((fst st + delta)%Z, snd st ++ [reason])
  | None => st
  end.

(** Running the evaluators of a table in order from a given state. *)
Definition run (url host : string) (rules : list (string * rule)) (st : Z * list string)
  : Z * list string :=
  fold_left (fun st '(_, r) => step (r url host) st) rules st.

(** The delta an outcome adds, 0 when the rule did not fire. *)
Definition delta_of (o : option contribution) : Z :=
  match o with
  | Some (delta, _) => delta
  | None => 0%Z
  end.

(** Section 4.3: clamp to [0, 100], then threshold. *)
Definition clamp (z : Z) : Z := Z.max 0 (Z.min 100 z).

Definition level_of (score : Z) : string :=
  if (70 <=? score)%Z then "HIGH"
  else if (35 <=? score)%Z then "MEDIUM"
  else "SAFE".

End Rules.

(** ** The request boundary

    What the claims about [/api/check_link] call a missing, empty or
    whitespace-only [url] field, on the payload [get_json] returned. *)

(** Only whitespace, or nothing at all. *)
Definition blank (s : string) : bool := Str.all Chr.isspace s.

(** The body is empty ([null], [{}], ...) or an object without the key. *)
Definition url_missing (payload : pyvalue) : Prop :=
  truthy payload = false \/ exists d, payload = PyDict d /\ d !! "url" = None.

(** The body is an object whose [url] is a blank string. *)
Definition url_blank (payload : pyvalue) : Prop :=
  exists d s, payload = PyDict d /\ d !! "url" = Some (PyStr s) /\ blank s = true.

(** [jsonify({"error": "missing url"}), 400] *)
Definition missing_url_response : pyvalue * Z :=
  (PyDict {["error" := PyStr "missing url"]}, 400%Z).

(** ** The remaining routes and the service as a whole *)

(** [l[start:]] with Python's slicing: a negative [start] counts from the
    end, and whatever falls outside the list is cut off. *)
Definition slice_from {A} (l : list A) (start : Z) : list A :=
  let n := Z.of_nat (length l) in
  let i := (if start <? 0 then Z.max 0 (n + start) else Z.min n start)%Z in
  skipn (Z.to_nat i) l.

(** [GET /api/latest] *)
Definition api_latest (st : server) : (pyvalue * Z) * server :=
  ((PyDict {["samples" := PyList (jsonify <$> slice_from (SAMPLES st) (-200))]},
    200%Z), st).

(** [GET /api/ping] *)
Definition ping (clock : Z) : pyvalue * Z :=
  (PyDict (<["ok" := PyBool true]> (<["ts" := PyInt (now_ts clock)]> ∅)), 200%Z).

(** The state of a fresh process: [SAMPLES = []]. *)
Definition startup : server := {| SAMPLES := []; classified := [] |}.

(** [POST /api/check_link] served for a sequence of requests, each with the
    clock reading at its arrival. *)
Definition serve (urlparse : string -> result urllib.ParseResult)
    (reqs : list (request * Z)) (st : server) : server :=
  fold_left (fun st '(req, clock) => snd (api_check_link urlparse req clock st)) reqs st.

(** The reason an evaluator's outcome appends, if any. *)
Definition reason_of (o : option Rules.contribution) : list string :=
  match o with
  | Some (_, reason) => [reason]
  | None => []
  end.

(** A colon followed by two digits somewhere in [s]. *)
Definition colon_two_digits (s : string) : Prop :=
  exists a d1 d2 b,
    s = a +:+ String ":" (String d1 (String d2 b)) /\
    Chr.is_digit d1 = true /\ Chr.is_digit d2 = true.

(** [s.isascii()] *)
Definition isascii (s : string) : bool :=
  Str.all (fun c => (Chr.ord c <? 128)%N) s.

(** One to three decimal digits. *)
Definition digit_group (s : string) : bool :=
  Str.all Chr.is_digit s && (1 <=? Str.len s)%nat && (Str.len s <=? 3)%nat.

(** * Verification *)

(** ** Strings under extension on the right *)

Lemma lower_app a b : Str.lower (a +:+ b) = Str.lower a +:+ Str.lower b.
Proof. induction a as [|c a IH]; simpl; [reflexivity | now rewrite IH]. Qed.

Lemma startswith_app s p t : Str.startswith s p = true -> Str.startswith (s +:+ t) p = true.
Proof.
  revert s. induction p as [|a p IH]; intros [|b s]; simpl; try easy.
  intros [-> H]%andb_true_iff. simpl. now apply IH.
Qed.

Lemma contains_app needle hay t :
  Str.contains needle hay = true -> Str.contains needle (hay +:+ t) = true.
Proof.
  induction hay as [|c hay IH]; simpl.
  - rewrite orb_false_r. intros H. destruct needle; [|discriminate].
    destruct t; reflexivity.
  - intros [H|H]%orb_true_iff.
    + apply (startswith_app (String c hay) needle t) in H.
      change (String c hay +:+ t) with (String c (hay +:+ t)) in H.
      rewrite H. reflexivity.
    + rewrite (IH H). apply orb_true_r.
Qed.

(** ** Matching under extension on the right

    A pattern without [\b] looks only at the characters it consumes, so a
    match in a string is a match in every extension of it. *)

Lemma one_stable p : re.stable (re.one p).
Proof.
  intros t prev [|c s] k k' Hk; simpl; [discriminate|].
  destruct (p c); [exact (Hk _ _) | discriminate].
Qed.

Lemma exactly_stable m n : re.stable m -> re.stable (re.exactly m n).
Proof.
  intros Hm. induction n as [|n IH]; intros t prev s k k' Hk; simpl.
  - exact (Hk _ _).
  - apply Hm. intros p s'. now apply IH.
Qed.

Lemma upto_stable m n : re.stable m -> re.stable (re.upto m n).
Proof.
  intros Hm. induction n as [|n IH]; intros t prev s k k' Hk; simpl.
  - exact (Hk _ _).
  - intros [H|H]%orb_true_iff.
    + apply orb_true_iff. left. revert H. apply Hm. intros p s'. now apply IH.
    + apply orb_true_iff. right. now apply Hk.
Qed.

Lemma compile_stable r : re.boundary_free r = true -> re.stable (re.compile r).
Proof.
  induction r as [c| | |r1 IH1 r2 IH2|lo hi r IH]; simpl; intros Hr.
  - apply one_stable.
  - apply one_stable.
  - discriminate.
  - apply andb_true_iff in Hr as [H1 H2].
    intros t prev s k k' Hk. apply (IH1 H1). intros p s'. now apply (IH2 H2).
  - intros t prev s k k' Hk. apply exactly_stable; [now apply IH|].
    intros p s'. now apply upto_stable; [apply IH|].
Qed.

Lemma search_from_app r prev s t :
  re.boundary_free r = true ->
  re.search_from r prev s = true -> re.search_from r prev (s +:+ t) = true.
Proof.
  intros Hr. revert prev. induction s as [|c s IH]; intros prev; simpl.
  - rewrite orb_false_r. intros H.
    assert (re.match_here r prev (EmptyString +:+ t) = true) as H'.
    { revert H. apply (compile_stable r Hr). now intros ? ? _. }
    change (EmptyString +:+ t) with t in H'. destruct t; simpl; rewrite H'; reflexivity.
  - intros [H|H]%orb_true_iff.
    + assert (re.match_here r prev (String c s +:+ t) = true) as H'.
      { revert H. apply (compile_stable r Hr). now intros ? ? _. }
      change (String c s +:+ t) with (String c (s +:+ t)) in H'.
      rewrite H'. reflexivity.
    + rewrite (IH _ H). apply orb_true_r.
Qed.

Lemma search_app r s t :
  re.boundary_free r = true -> re.search r s = true -> re.search r (s +:+ t) = true.
Proof. apply search_from_app. Qed.

(** ** [strip] *)

Lemma lstrip_head s :
  Str.lstrip s = EmptyString \/
  exists c t, Str.lstrip s = String c t /\ Chr.isspace c = false.
Proof.
  induction s as [|c s IH]; simpl; [now left|].
  destruct (Chr.isspace c) eqn:E; [exact IH|]. right. eauto.
Qed.

Lemma rstrip_head c s :
  Chr.isspace c = false -> exists t, Str.rstrip (String c s) = String c t.
Proof. intros E. simpl. rewrite E. destruct (Str.rstrip s); eauto. Qed.

Lemma strip_head s :
  Str.strip s = EmptyString \/
  exists c t, Str.strip s = String c t /\ Chr.isspace c = false.
Proof.
  unfold Str.strip. destruct (lstrip_head s) as [->|(c & t & -> & E)]; [now left|].
  right. destruct (rstrip_head c t E) as (t' & ->). eauto.
Qed.

Lemma strip_blank s : Str.all Chr.isspace s = true -> Str.strip s = EmptyString.
Proof.
  unfold Str.strip. induction s as [|c s IH]; simpl; [reflexivity|].
  intros [-> H]%andb_true_iff. now apply IH.
Qed.

Lemma strip_not_blank s :
  Str.truthy (Str.strip s) = true -> Str.all Chr.isspace (Str.strip s) = false.
Proof.
  destruct (strip_head s) as [->|(c & t & -> & E)]; [discriminate|].
  intros _. simpl. now rewrite E.
Qed.

(** ** Facts about the rule table *)

Lemma when_delta c d t x : Rules.when c d t = Some x -> fst x = d.
Proof. unfold Rules.when. destruct c; [|discriminate]. now intros [= <-]. Qed.

Lemma first_match_delta l p d f x : Rules.first_match l p d f = Some x -> fst x = d.
Proof. unfold Rules.first_match. destruct (List.find p l); [|discriminate]. now intros [= <-]. Qed.

Lemma rules_positive url host :
  Forall (fun '(_, r) => forall c, r url host = Some c -> (0 < fst c)%Z) Rules.RULES.
Proof.
  unfold Rules.RULES.
  repeat apply List.Forall_cons; try apply List.Forall_nil; cbv beta iota; intros c;
    unfold Rules.rule1, Rules.rule2, Rules.rule3, Rules.rule4a, Rules.rule4b,
      Rules.rule4c, Rules.rule4d, Rules.rule5, Rules.rule6, Rules.rule7;
    try destruct (Rules.has_subdomain host); try discriminate;
    intros H; first [apply when_delta in H | apply first_match_delta in H];
    rewrite H; reflexivity.
Qed.

Lemma fired_positive url host :
  Forall (fun d => (0 < d)%Z) (Rules.deltas url host).
Proof.
  unfold Rules.deltas, Rules.fired.
  pose proof (rules_positive url host) as H.
  induction H as [|[id r] rules Hr _ IH]; cbn; [constructor|].
  destruct (r url host) as [c|] eqn:E; cbn; [|exact IH].
  constructor; [now apply Hr | exact IH].
Qed.

Lemma sum_nonneg l : Forall (fun d => (0 < d)%Z) l -> (0 <= Rules.sum l)%Z.
Proof. unfold Rules.sum. induction 1; cbn [fold_right]; lia. Qed.

Lemma sum_zero_nil l : Forall (fun d => (0 < d)%Z) l -> Rules.sum l = 0%Z -> l = [].
Proof.
  intros H. destruct H as [|d l Hd Hl]; [reflexivity|].
  pose proof (sum_nonneg l Hl). unfold Rules.sum in *. cbn [fold_right]. lia.
Qed.

Lemma fired_ids_sublist url host : sublist (Rules.fired_ids url host) Rules.ORDER.
Proof.
  unfold Rules.fired_ids, Rules.fired, Rules.ORDER.
  induction Rules.RULES as [|[id r] rules IH]; cbn; [constructor|].
  destruct (r url host); cbn; [now apply sublist_skip | now apply sublist_cons].
Qed.

Lemma level_of_thresholds score :
  ((70 <= score)%Z -> Rules.level_of score = "HIGH") /\
  ((35 <= score < 70)%Z -> Rules.level_of score = "MEDIUM") /\
  ((score < 35)%Z -> Rules.level_of score = "SAFE").
Proof.
  unfold Rules.level_of.
  destruct (Z.leb_spec 70 score), (Z.leb_spec 35 score); repeat split; intros; try reflexivity; lia.
Qed.

Lemma sum_deltas_rules (url host : string) (rules : list (string * Rules.rule)) :
  Rules.sum ((fun x : string * Rules.contribution => fst (snd x)) <$>
     omap (fun '(id, r) => match r url host with Some c => Some (id, c) | None => None end) rules)
  = Rules.sum ((fun '(_, r) => Rules.delta_of (r url host)) <$> rules).
Proof.
  unfold Rules.sum. induction rules as [|[id r] rules IH]; [reflexivity|].
  cbn [omap list_omap fmap list_fmap fold_right].
  destruct (r url host) as [[d t]|]; cbn [fmap list_fmap fold_right Rules.delta_of fst snd].
  - f_equal. exact IH.
  - rewrite Z.add_0_l. exact IH.
Qed.

Lemma when_mono (c c' : bool) d t :
  (0 <= d)%Z -> (c = true -> c' = true) ->
  (Rules.delta_of (Rules.when c d t) <= Rules.delta_of (Rules.when c' d t))%Z.
Proof.
  intros Hd Hc. destruct c; simpl.
  - rewrite Hc by reflexivity. simpl. lia.
  - destruct c'; simpl; lia.
Qed.

Lemma find_mono (p p' : string -> bool) l :
  (forall x, p x = true -> p' x = true) ->
  forall x, List.find p l = Some x -> exists y, List.find p' l = Some y.
Proof.
  intros Hp. induction l as [|a l IH]; simpl; intros x; [discriminate|].
  destruct (p a) eqn:E.
  - rewrite (Hp a E). eauto.
  - destruct (p' a); eauto.
Qed.

Lemma first_match_mono l (p p' : string -> bool) d f :
  (0 <= d)%Z -> (forall x, p x = true -> p' x = true) ->
  (Rules.delta_of (Rules.first_match l p d f)
   <= Rules.delta_of (Rules.first_match l p' d f))%Z.
Proof.
  intros Hd Hp. unfold Rules.first_match.
  destruct (List.find p l) as [x|] eqn:E.
  - destruct (find_mono p p' l Hp x E) as [y ->]. simpl. lia.
  - destruct (List.find p' l); simpl; lia.
Qed.

Lemma clamp_mono a b : (a <= b)%Z -> (Rules.clamp a <= Rules.clamp b)%Z.
Proof. unfold Rules.clamp. lia. Qed.

Lemma clamp_bounds a : (0 <= Rules.clamp a <= 100)%Z.
Proof. unfold Rules.clamp. lia. Qed.

Lemma sum_deltas_mono u s h :
  (Rules.sum (Rules.deltas u h) <= Rules.sum (Rules.deltas (u +:+ s) h))%Z.
Proof.
  unfold Rules.deltas, Rules.fired. rewrite !sum_deltas_rules.
  assert (Rules.delta_of (Rules.rule2 u h) <= Rules.delta_of (Rules.rule2 (u +:+ s) h))%Z as H2.
  { apply when_mono; [lia|]. now apply search_app. }
  assert (Rules.delta_of (Rules.rule6 u h) <= Rules.delta_of (Rules.rule6 (u +:+ s) h))%Z as H6.
  { apply first_match_mono; [lia|]. intros x. rewrite lower_app. apply contains_app. }
  assert (Rules.delta_of (Rules.rule7 u h) <= Rules.delta_of (Rules.rule7 (u +:+ s) h))%Z as H7.
  { apply first_match_mono; [lia|]. intros x. rewrite lower_app. apply contains_app. }
  unfold Rules.RULES, Rules.sum. cbn [fmap list_fmap fold_right].
  change (Rules.rule1 (u +:+ s) h) with (Rules.rule1 u h).
  change (Rules.rule3 (u +:+ s) h) with (Rules.rule3 u h).
  change (Rules.rule4a (u +:+ s) h) with (Rules.rule4a u h).
  change (Rules.rule4b (u +:+ s) h) with (Rules.rule4b u h).
  change (Rules.rule4c (u +:+ s) h) with (Rules.rule4c u h).
  change (Rules.rule4d (u +:+ s) h) with (Rules.rule4d u h).
  change (Rules.rule5 (u +:+ s) h) with (Rules.rule5 u h).
  lia.
Qed.

(** ** The engine against the rule table *)

Section EngineFacts.
Variable urlparse : string -> result urllib.ParseResult.

Lemma split_on_cons sep s : exists p rest, Str.split_on sep s = p :: rest.
Proof.
  induction s as [|c s IH]; simpl; [eauto|].
  destruct (sep c); [eauto|].
  destruct IH as (p & rest & ->). eauto.
Qed.

Lemma getitem_0 {A} (x : A) l : getitem (x :: l) 0 = Return x.
Proof.
  unfold getitem. cbn [length].
  replace (0 <? 0)%Z with false by reflexivity.
  destruct (Z.ltb_spec 0 0); try lia.
  destruct (Z.leb_spec (Z.of_nat (S (length l))) 0); try lia.
  reflexivity.
Qed.

Lemma getitem_neg2 (l : list string) :
  (2 <= length l)%nat ->
  getitem l (-2) = Return (List.nth (length l - 2) l EmptyString).
Proof.
  intros Hl. unfold getitem.
  replace (-2 <? 0)%Z with true by reflexivity.
  destruct (Z.ltb_spec (Z.of_nat (length l) + -2) 0); try lia.
  destruct (Z.leb_spec (Z.of_nat (length l)) (Z.of_nat (length l) + -2)); try lia.
  cbn [orb].
  replace (Z.to_nat (Z.of_nat (length l) + -2)) with (length l - 2)%nat by lia.
  destruct (l !! (length l - 2)%nat) eqn:E.
  - f_equal. symmetry. apply nth_lookup_Some with (d := EmptyString) in E. exact E.
  - apply lookup_ge_None in E. lia.
Qed.

Lemma parse_hostname_returns url : exists h, parse_hostname urlparse url = Return h.
Proof.
  unfold parse_hostname.
  destruct (Str.truthy (Str.strip url)); cbn [negb]; [|eauto].
  destruct (urlparse _) as [p|e]; cbn; [eauto|].
  destruct (split_on_cons (Chr.eqb "/") (Str.strip url)) as (p & rest & E).
  unfold Str.split. rewrite E, getitem_0. cbn. eauto.
Qed.


Lemma for_break_find {A S} (l : list A) cond (body : A -> S -> S) st :
  for_break l cond body st =
  match List.find cond l with Some x => body x st | None => st end.
Proof. induction l as [|x l IH]; simpl; [reflexivity|]. destruct (cond x); auto. Qed.

Lemma for_break_step l cond d (f : string -> string) (s : Z) (rs : list string) :
  for_break l cond (fun x '(score, reasons) => ((score + d)%Z, reasons ++ [f x])) (s, rs)
  = Rules.step (Rules.first_match l cond d f) (s, rs).
Proof.
  rewrite for_break_find. unfold Rules.first_match.
  destruct (List.find cond l); reflexivity.
Qed.

Lemma if_step (c : bool) d r (s : Z) (rs : list string) :
  (if c then ((s + d)%Z, rs ++ [r]) else (s, rs)) = Rules.step (Rules.when c d r) (s, rs).
Proof. destruct c; reflexivity. Qed.

Lemma run_fired url host rules s rs :
  Rules.run url host rules (s, rs) =
  ((s + Rules.sum ((fun x => fst (snd x)) <$>
        omap (fun '(id, r) => match r url host with Some c => Some (id, c) | None => None end) rules))%Z,
   rs ++ ((fun x => snd (snd x)) <$>
        omap (fun '(id, r) => match r url host with Some c => Some (id, c) | None => None end) rules)).
Proof.
  revert s rs. induction rules as [|[id r] rules IH]; intros s rs; cbn.
  - now rewrite Z.add_0_r, app_nil_r.
  - unfold Rules.run in IH. destruct (r url host) as [[d t]|]; cbn.
    + rewrite IH. cbn. rewrite <- app_assoc, Z.add_assoc. reflexivity.
    + apply IH.
Qed.

Ltac absorb :=
  first [ rewrite if_step | rewrite for_break_step ];
  match goal with
  | |- context [Rules.step ?o ?st] =>
      let s := fresh "s" in
      let rs := fresh "rs" in
      let E := fresh "E" in
      destruct (Rules.step o st) as [s rs] eqn:E
  end;
  cbv beta iota.

Lemma classify_link_rules url clock h :
  parse_hostname urlparse url = Return h ->
  classify_link urlparse url clock =
  Return {| url := url; host := h;
            score := Rules.clamp (Rules.sum (Rules.deltas url h));
            level := Rules.level_of (Rules.clamp (Rules.sum (Rules.deltas url h)));
            reasons := Rules.texts url h;
            ts := clock |}.
Proof.
  intros Hh. unfold classify_link. rewrite Hh. cbn [mbind result_bind].
  pose proof (run_fired url h Rules.RULES 0 []) as Hrun.
  rewrite Z.add_0_l, app_nil_l in Hrun.
  fold (Rules.fired url h) in Hrun. fold (Rules.deltas url h) (Rules.texts url h) in Hrun.
  cbn [Rules.run fold_left Rules.RULES] in Hrun.
  unfold Rules.rule1, Rules.rule2, Rules.rule3, Rules.rule4a, Rules.rule4b,
    Rules.rule4c, Rules.rule4d, Rules.rule5, Rules.rule6, Rules.rule7,
    Rules.has_subdomain, Rules.subdomain, Rules.sld, Rules.labels_of in Hrun.
  do 3 absorb.
  destruct (3 <=? length (if Str.truthy h then Str.split "." h else []))%nat eqn:Eg.
  - cbn [andb] in Hrun. do 3 absorb.
    assert ((2 <=? length (if Str.truthy h then Str.split "." h else []))%nat = true) as Hsld.
    { apply Nat.leb_le. apply Nat.leb_le in Eg. lia. }
    rewrite Hsld, getitem_neg2 by (apply Nat.leb_le in Hsld; exact Hsld).
    cbn [mbind result_bind].
    absorb. do 3 absorb.
    injection Hrun as Hs Hr. subst. reflexivity.
  - cbn [andb Rules.when Rules.step] in Hrun.
    cbn [mbind result_bind]. do 3 absorb.
    injection Hrun as Hs Hr. subst. reflexivity.
Qed.

(** ** The claims about the engine, for any behaviour of [urlparse] *)

(** C1. For every input the score lies in [0, 100] and the level is the
    threshold function of the score: HIGH from 70, MEDIUM from 35 to 69,
    SAFE below 35. *)
Theorem score_in_range_and_level_by_threshold url clock :
  exists r,
    classify_link urlparse url clock = Return r /\
    (0 <= score r <= 100)%Z /\
    level r = (if (70 <=? score r)%Z then "HIGH"
               else if (35 <=? score r)%Z then "MEDIUM"
               else "SAFE").
Proof.
  destruct (parse_hostname_returns url) as [h Hh].
  rewrite (classify_link_rules url clock h Hh).
  eexists. split; [reflexivity|]. cbn [score level].
  split; [apply clamp_bounds | reflexivity].
Qed.

(** C3. [classify_link] returns for every string, whatever [urlparse]
    does; [parse_hostname] returns too, and when [urlparse] raises its
    value is the lowercased text before the first slash. *)
Theorem classify_link_never_raises url clock :
  (exists r, classify_link urlparse url clock = Return r) /\
  parse_hostname urlparse url =
  Return (let u := Str.strip url in
          if Str.truthy u then
            match urlparse (if Str.contains "://" u then u else "https://" +:+ u) with
            | Return parsed => Str.lower (or_empty (urllib.hostname parsed))
            | Raise _ => Str.lower (List.hd EmptyString (Str.split "/" u))
            end
          else EmptyString).
Proof.
  split.
  - destruct (parse_hostname_returns url) as [h Hh].
    rewrite (classify_link_rules url clock h Hh). eauto.
  - unfold parse_hostname. cbv zeta.
    destruct (Str.truthy (Str.strip url)); cbn [negb]; [|reflexivity].
    destruct (urlparse _) as [p|e]; cbn [try_except mbind result_bind]; [reflexivity|].
    destruct (split_on_cons (Chr.eqb "/") (Str.strip url)) as (p & rest & E).
    unfold Str.split. rewrite E, getitem_0. reflexivity.
Qed.

(** C4. Two calls on the same string, at any two clock readings, agree on
    host, score, level and reasons. *)
Theorem classify_link_deterministic url clock1 clock2 :
  exists r1 r2,
    classify_link urlparse url clock1 = Return r1 /\
    classify_link urlparse url clock2 = Return r2 /\
    host r1 = host r2 /\ score r1 = score r2 /\
    level r1 = level r2 /\ reasons r1 = reasons r2.
Proof.
  destruct (parse_hostname_returns url) as [h Hh].
  rewrite !(classify_link_rules url _ h Hh).
  eexists _, _. repeat split.
Qed.

(** C6. On the empty string: empty host, score 0, level SAFE, no reasons,
    and no rule of the table fires. *)
Theorem classify_link_empty clock :
  classify_link urlparse EmptyString clock =
  Return {| url := EmptyString; host := EmptyString; score := 0; level := "SAFE";
            reasons := []; ts := clock |} /\
  Rules.fired EmptyString EmptyString = [].
Proof. split; reflexivity. Qed.

(** C8. Monotonicity under appending: when the suffix [s] leaves the
    normalised host of [u] unchanged, the score of [u + s] is at least the
    score of [u]. *)
Theorem appending_never_lowers_score u s clock :
  parse_hostname urlparse (u +:+ s) = parse_hostname urlparse u ->
  exists r r',
    classify_link urlparse u clock = Return r /\
    classify_link urlparse (u +:+ s) clock = Return r' /\
    (score r <= score r')%Z.
Proof.
  intros Hsame.
  destruct (parse_hostname_returns u) as [h Hh].
  rewrite Hh in Hsame.
  rewrite (classify_link_rules u clock h Hh).
  rewrite (classify_link_rules (u +:+ s) clock h Hsame).
  eexists _, _. split; [reflexivity|]. split; [reflexivity|].
  cbn [score]. apply clamp_mono, sum_deltas_mono.
Qed.


(** C7. The score is the clamped sum of the deltas of the rules that
    fired, the reasons are the texts of those rules, one per fired rule,
    and they come in the fixed order 1, 2, 3, 4a, 4b, 4c, 4d, 5, 6, 7, no
    rule more than once. *)
Theorem score_and_reasons_follow_rule_table url clock :
  exists r,
    classify_link urlparse url clock = Return r /\
    score r = Z.max 0 (Z.min 100 (Rules.sum (Rules.deltas url (host r)))) /\
    reasons r = Rules.texts url (host r) /\
    length (reasons r) = length (Rules.fired url (host r)) /\
    sublist (Rules.fired_ids url (host r))
      ["1"; "2"; "3"; "4a"; "4b"; "4c"; "4d"; "5"; "6"; "7"] /\
    NoDup (Rules.fired_ids url (host r)).
Proof.
  destruct (parse_hostname_returns url) as [h Hh].
  rewrite (classify_link_rules url clock h Hh).
  eexists. split; [reflexivity|]. cbn [score reasons host].
  split; [reflexivity|]. split; [reflexivity|].
  split; [unfold Rules.texts; apply length_fmap|].
  pose proof (fired_ids_sublist url h) as Hsub.
  split; [exact Hsub|].
  eapply sublist_NoDup; [|exact Hsub].
  unfold Rules.ORDER, Rules.RULES. cbn [fmap list_fmap fst].
  apply NoDup_ListNoDup. repeat (constructor; [cbn; intuition discriminate|]).
  constructor.
Qed.

(** C10. The reasons list is empty exactly when the score is 0: every
    fired rule adds a positive delta, so the sum is never negative and the
    lower bound of the clamp is not the active one. *)
Theorem no_reasons_iff_zero_score url clock :
  exists r,
    classify_link urlparse url clock = Return r /\
    (reasons r = [] <-> score r = 0%Z) /\
    Forall (fun d => (0 < d)%Z) (Rules.deltas url (host r)) /\
    score r = Z.min 100 (Rules.sum (Rules.deltas url (host r))).
Proof.
  destruct (parse_hostname_returns url) as [h Hh].
  rewrite (classify_link_rules url clock h Hh).
  eexists. split; [reflexivity|]. cbn [score reasons host].
  pose proof (fired_positive url h) as Hpos.
  pose proof (sum_nonneg _ Hpos) as Hnn.
  split; [|split; [exact Hpos | unfold Rules.clamp; lia]].
  split.
  - unfold Rules.texts, Rules.deltas. intros ->%fmap_nil_inv. reflexivity.
  - intros Hz.
    assert (Rules.sum (Rules.deltas url h) = 0%Z) as H0
      by (unfold Rules.clamp in Hz; lia).
    apply (sum_zero_nil _ Hpos) in H0.
    unfold Rules.texts, Rules.deltas in *. apply fmap_nil_inv in H0.
    rewrite H0. reflexivity.
Qed.

(** ** The request boundary *)

Lemma handler_url_stripped (req : request) u :
  (payload ← get_json req;
   let payload := py_or payload (PyDict ∅) in
   v ← py_get payload "url" (PyStr EmptyString);
   py_strip v) = Return u ->
  exists s, u = Str.strip s.
Proof.
  destruct (get_json req) as [payload|e]; cbn [mbind result_bind]; [|discriminate].
  destruct (py_get (py_or payload (PyDict ∅)) "url" (PyStr EmptyString)) as [v|e];
    cbn [mbind result_bind]; [|discriminate].
  destruct v; cbn [py_strip]; try discriminate.
  intros [= <-]. eauto.
Qed.

Lemma handler_url_of_blank payload :
  url_missing payload \/ url_blank payload ->
  (v ← py_get (py_or payload (PyDict ∅)) "url" (PyStr EmptyString); py_strip v)
  = Return EmptyString.
Proof.
  intros [[Hfalsy|(d & -> & Hd)]|(d & s & -> & Hd & Hs)].
  - unfold py_or. rewrite Hfalsy. cbn [py_get]. rewrite lookup_empty. reflexivity.
  - unfold py_or. destruct (truthy (PyDict d)); cbn [py_get];
      rewrite ?Hd, ?lookup_empty; reflexivity.
  - unfold py_or. destruct (truthy (PyDict d)) eqn:Ht.
    + cbn [py_get]. rewrite Hd. cbn [mbind result_bind py_strip].
      now rewrite (strip_blank s Hs).
    + cbn [truthy] in Ht. apply negb_false_iff, bool_decide_eq_true in Ht.
      subst d. rewrite lookup_empty in Hd. discriminate.
Qed.

(** C9, amended. When [get_json] returns a body that is empty, or a JSON
    object without the [url] key, or one whose [url] is a string that is
    empty or only whitespace, the handler gives the 400 "missing url"
    response with the state untouched, so [classify_link] is not invoked;
    and whatever the request, the handler never passes a blank string to
    [classify_link]. *)
Theorem blank_url_rejected_before_classification req clock st payload :
  get_json req = Return payload ->
  url_missing payload \/ url_blank payload ->
  api_check_link urlparse req clock st = (Return missing_url_response, st) /\
  (forall req' clock' st',
     exists new,
       classified (snd (api_check_link urlparse req' clock' st'))
       = classified st' ++ new /\
       Forall (fun u => blank u = false) new).
Proof.
  intros Hjson Hblank. split.
  - unfold api_check_link. rewrite Hjson. cbn [mbind result_bind]. cbv zeta.
    rewrite (handler_url_of_blank payload Hblank). reflexivity.
  - intros req' clock' st'. unfold api_check_link.
    destruct (_ ← get_json req'; _) as [u|e] eqn:E.
    + destruct (Str.truthy u) eqn:Hu; cbn [negb].
      * destruct (handler_url_stripped req' u E) as [s ->].
        exists [Str.strip s]. split.
        -- destruct (classify_link urlparse (Str.strip s) clock'); reflexivity.
        -- constructor; [|constructor]. now apply strip_not_blank.
      * exists []. split; [symmetry; apply app_nil_r | constructor].
    + exists []. split; [symmetry; apply app_nil_r | constructor].
Qed.

End EngineFacts.

(** ** The worked examples, with [urllib.urlparse] *)

Example urlparse_unbalanced_bracket :
  urllib.urlparse "https://[oops" = Raise ValueError.
Proof. reflexivity. Qed.

Example parse_hostname_fallback :
  parse_hostname urllib.urlparse "https://[oops" = Return "https:".
Proof. reflexivity. Qed.

Example parse_hostname_userinfo_port :
  parse_hostname urllib.urlparse "  HTTP://User:pw@Example.COM:8080/a?b#c "
  = Return "example.com".
Proof. reflexivity. Qed.

Example parse_hostname_bare :
  parse_hostname urllib.urlparse "example.com/login" = Return "example.com".
Proof. reflexivity. Qed.

Example ip_literal_case clock :
  classify_link urllib.urlparse "http://192.168.1.10/verify" clock =
  Return {| url := "http://192.168.1.10/verify"; host := "192.168.1.10";
            score := 55; level := "MEDIUM";
            reasons := ["Direct IP address used in host (not a normal domain)";
                        "Contains phishing-related keyword: 'verify'"];
            ts := clock |}.
Proof. reflexivity. Qed.

Example shortener_case clock :
  classify_link urllib.urlparse "https://bit.ly/abc123" clock =
  Return {| url := "https://bit.ly/abc123"; host := "bit.ly";
            score := 30; level := "SAFE";
            reasons := ["Uses known link shortener: bit.ly"];
            ts := clock |}.
Proof. reflexivity. Qed.

(** C2, as stated, fails: on the stacking example no call gives score 68,
    level MEDIUM and the fired rules 3, 4c, 7. *)
Lemma stacking_example_is_not_68 :
  ~ exists clock r,
      classify_link urllib.urlparse "https://secure-login-verify.trycloudflare.com" clock
      = Return r /\
      score r = 68%Z /\ level r = "MEDIUM" /\
      Rules.fired_ids "https://secure-login-verify.trycloudflare.com" (host r)
      = ["3"; "4c"; "7"].
Proof.
  intros (clock & r & Hr & Hscore & _).
  vm_compute in Hr. injection Hr as <-. discriminate Hscore.
Qed.

(** C2, amended. The stacking example fires rules 3, 4b (the subdomain has
    two hyphens), 4c and 7, the keyword found first being "verify"; the
    score is 35 + 12 + 18 + 15 = 80 and the level HIGH. *)
Theorem stacking_example_scores_80 clock :
  classify_link urllib.urlparse "https://secure-login-verify.trycloudflare.com" clock =
  Return {| url := "https://secure-login-verify.trycloudflare.com";
            host := "secure-login-verify.trycloudflare.com";
            score := 80; level := "HIGH";
            reasons :=
              ["Hosted on ephemeral/third-party platform: trycloudflare.com";
               "Multiple hyphens in subdomain (common in phishing hosts)";
               "Multi-word / token-rich subdomain (likely not a normal brand hostname)";
               "Contains phishing-related keyword: 'verify'"];
            ts := clock |} /\
  Rules.fired "https://secure-login-verify.trycloudflare.com"
              "secure-login-verify.trycloudflare.com" =
  [("3", (35%Z, "Hosted on ephemeral/third-party platform: trycloudflare.com"));
   ("4b", (12%Z, "Multiple hyphens in subdomain (common in phishing hosts)"));
   ("4c", (18%Z, "Multi-word / token-rich subdomain (likely not a normal brand hostname)"));
   ("7", (15%Z, "Contains phishing-related keyword: 'verify'"))].
Proof. split; reflexivity. Qed.

(** C5. [paypal.com] itself does not fire rule 4d (nor any other rule);
    [paypal.security-check.net/login] fires rule 4d on the brand token
    "paypal" and rule 7 on the keyword "login". *)
Theorem brand_rule_does_not_self_flag clock :
  (exists r,
     classify_link urllib.urlparse "https://paypal.com" clock = Return r /\
     host r = "paypal.com" /\ reasons r = [] /\
     Rules.rule4d "https://paypal.com" "paypal.com" = None /\
     Rules.fired_ids "https://paypal.com" "paypal.com" = []) /\
  (exists r,
     classify_link urllib.urlparse "https://paypal.security-check.net/login" clock
     = Return r /\
     host r = "paypal.security-check.net" /\
     reasons r =
       ["Brand impersonation detected: 'paypal' appears in subdomain while parent domain is not 'paypal'";
        "Contains phishing-related keyword: 'login'"] /\
     Rules.fired "https://paypal.security-check.net/login" "paypal.security-check.net" =
       [("4d", (40%Z, "Brand impersonation detected: 'paypal' appears in subdomain while parent domain is not 'paypal'"));
        ("7", (15%Z, "Contains phishing-related keyword: 'login'"))]).
Proof.
  split; eexists; (split; [reflexivity|]); repeat split; reflexivity.
Qed.

(** ** Instances of the conditional claims *)

(** C8 at [https://example.com] with the suffix [/verify]: the host stays
    [example.com] and the score goes from 0 to 15. *)
Lemma example_com_verify_suffix :
  parse_hostname urllib.urlparse ("https://example.com" +:+ "/verify")
  = parse_hostname urllib.urlparse "https://example.com" /\
  exists r r',
    classify_link urllib.urlparse "https://example.com" 0 = Return r /\
    classify_link urllib.urlparse ("https://example.com" +:+ "/verify") 0 = Return r' /\
    (score r <= score r')%Z.
Proof.
  split; [reflexivity|].
  apply (appending_never_lowers_score urllib.urlparse "https://example.com" "/verify" 0).
  reflexivity.
Defined.

(** C9, as stated, fails: a request can lack a [url] field and still not
    get the 400 "missing url" response.  A JSON array as body has no
    [url] field, and the handler raises [AttributeError] on it; a request
    that Flask aborts in [get_json] (415 here) is answered by that error. *)
Lemma url_less_post_without_missing_url_response :
  api_check_link urllib.urlparse {| get_json := Return (PyList [PyInt 1]) |} 0
    {| SAMPLES := []; classified := [] |}
  = (Raise AttributeError, {| SAMPLES := []; classified := [] |}) /\
  fst (api_check_link urllib.urlparse {| get_json := Return (PyList [PyInt 1]) |} 0
         {| SAMPLES := []; classified := [] |})
  <> Return missing_url_response /\
  api_check_link urllib.urlparse {| get_json := Raise (HTTPException 415) |} 0
    {| SAMPLES := []; classified := [] |}
  = (Raise (HTTPException 415), {| SAMPLES := []; classified := [] |}).
Proof. repeat split. discriminate. Qed.

(** C9 at a request whose [url] is three spaces, on a fresh server. *)
Lemma three_spaces_rejected :
  let req := {| get_json := Return (PyDict {["url" := PyStr "   "]}) |} in
  let st := {| SAMPLES := []; classified := [] |} in
  get_json req = Return (PyDict {["url" := PyStr "   "]}) /\
  (url_missing (PyDict {["url" := PyStr "   "]}) \/
   url_blank (PyDict {["url" := PyStr "   "]})) /\
  api_check_link urllib.urlparse req 0 st = (Return missing_url_response, st).
Proof.
  assert (url_missing (PyDict {["url" := PyStr "   "]}) \/
          url_blank (PyDict {["url" := PyStr "   "]})) as Hblank.
  { right. exists {["url" := PyStr "   "]}, "   ". repeat split; reflexivity. }
  cbv zeta. split; [reflexivity|]. split; [exact Hblank|].
  exact (proj1 (blank_url_rejected_before_classification urllib.urlparse
                  {| get_json := Return (PyDict {["url" := PyStr "   "]}) |} 0
                  {| SAMPLES := []; classified := [] |}
                  (PyDict {["url" := PyStr "   "]}) eq_refl Hblank)).
Defined.

(** * Further properties of the service *)

(** ** [strip] and blank strings *)

Lemma lstrip_all_space s : Str.all Chr.isspace (Str.lstrip s) = Str.all Chr.isspace s.
Proof.
  induction s as [|c s IH]; simpl; [reflexivity|].
  destruct (Chr.isspace c) eqn:E; simpl; [exact IH | now rewrite E].
Qed.

Lemma rstrip_empty_all_space s : Str.rstrip s = EmptyString -> Str.all Chr.isspace s = true.
Proof.
  induction s as [|c s IH]; simpl; [reflexivity|].
  destruct (Str.rstrip s); [|discriminate].
  destruct (Chr.isspace c); [|discriminate]. intros _. now apply IH.
Qed.

Lemma strip_empty_blank s : Str.strip s = EmptyString -> blank s = true.
Proof.
  unfold Str.strip, blank. intros H%rstrip_empty_all_space.
  now rewrite lstrip_all_space in H.
Qed.

Lemma not_blank_strip_truthy s : blank s = false -> Str.truthy (Str.strip s) = true.
Proof.
  intros Hb. destruct (Str.strip s) eqn:E; [|reflexivity].
  apply strip_empty_blank in E. congruence.
Qed.

Lemma rstrip_idem s : Str.rstrip (Str.rstrip s) = Str.rstrip s.
Proof.
  induction s as [|c s IH]; simpl; [reflexivity|].
  destruct (Str.rstrip s) as [|a r] eqn:E.
  - destruct (Chr.isspace c) eqn:Ec; simpl; [reflexivity | now rewrite Ec].
  - change (Str.rstrip (String c (String a r))) with
      (match Str.rstrip (String a r) with
       | EmptyString => if Chr.isspace c then EmptyString else String c EmptyString
       | String _ _ as r' => String c r'
       end).
    rewrite IH. reflexivity.
Qed.

Lemma strip_idem s : Str.strip (Str.strip s) = Str.strip s.
Proof.
  destruct (strip_head s) as [E|(c & t & E & Hc)]; rewrite E.
  - reflexivity.
  - unfold Str.strip at 1. simpl Str.lstrip. rewrite Hc.
    rewrite <- E. unfold Str.strip. apply rstrip_idem.
Qed.

(** ** Python slices *)

Lemma slice_last_200 {A} (l : list A) :
  slice_from l (-200) = skipn (length l - 200) l.
Proof.
  unfold slice_from. replace (-200 <? 0)%Z with true by reflexivity.
  f_equal. lia.
Qed.

(** ** The handler on an accepted request *)

Section ServiceFacts.
Variable urlparse : string -> result urllib.ParseResult.

Lemma classify_link_returns url clock :
  exists result, classify_link urlparse url clock = Return result.
Proof.
  destruct (parse_hostname_returns urlparse url) as [h Hh].
  rewrite (classify_link_rules urlparse url clock h Hh). eauto.
Qed.

Lemma check_link_accepts req clock st d s result :
  get_json req = Return (PyDict d) ->
  d !! "url" = Some (PyStr s) ->
  blank s = false ->
  classify_link urlparse (Str.strip s) clock = Return result ->
  api_check_link urlparse req clock st =
  (Return (jsonify result, 200%Z),
   {| SAMPLES := if (MAX_SAMPLES <? length (SAMPLES st ++ [result]))%nat
                 then tl (SAMPLES st ++ [result]) else SAMPLES st ++ [result];
      classified := classified st ++ [Str.strip s] |}).
Proof.
  intros Hjson Hd Hs Hc. unfold api_check_link.
  rewrite Hjson. cbn [mbind result_bind]. cbv zeta.
  assert (py_or (PyDict d) (PyDict ∅) = PyDict d) as ->.
  { unfold py_or. destruct (truthy (PyDict d)) eqn:Ht; [reflexivity|].
    cbn [truthy] in Ht. apply negb_false_iff, bool_decide_eq_true in Ht.
    subst d. rewrite lookup_empty in Hd. discriminate. }
  cbn [py_get]. rewrite Hd. cbn [mbind result_bind py_strip].
  rewrite (not_blank_strip_truthy s Hs). cbn [negb].
  cbn [SAMPLES classified]. rewrite Hc. reflexivity.
Qed.

Lemma pop_oldest {A} (l : list A) (x : A) :
  (if (MAX_SAMPLES <? length (l ++ [x]))%nat then tl (l ++ [x]) else l ++ [x])
  = (if (MAX_SAMPLES <=? length l)%nat then tl l else l) ++ [x].
Proof.
  rewrite length_app. cbn [length].
  destruct (Nat.ltb_spec MAX_SAMPLES (length l + 1)), (Nat.leb_spec MAX_SAMPLES (length l));
    try lia; [|reflexivity].
  destruct l; [|reflexivity]. cbn [length] in *. unfold MAX_SAMPLES in *. lia.
Qed.


Lemma check_link_samples_step req clock st :
  (length (SAMPLES st) <= MAX_SAMPLES)%nat ->
  (length (SAMPLES (snd (api_check_link urlparse req clock st))) <= MAX_SAMPLES)%nat.
Proof.
  intros Hst. unfold api_check_link.
  destruct (_ ← get_json req; _) as [u|e]; [|exact Hst].
  destruct (negb (Str.truthy u)); [exact Hst|].
  destruct (classify_link urlparse u clock) as [result|e]; [|exact Hst].
  cbn [snd SAMPLES]. rewrite pop_oldest, length_app. cbn [length].
  destruct (MAX_SAMPLES <=? length (SAMPLES st))%nat eqn:E.
  - destruct (SAMPLES st); cbn [tl length] in *; unfold MAX_SAMPLES in *; lia.
  - apply Nat.leb_gt in E. lia.
Qed.

(** X1. From the start of the process, whatever requests [/api/check_link]
    serves, [SAMPLES] never holds more than [MAX_SAMPLES] = 1000 results. *)
Theorem samples_never_exceed_cap reqs :
  (length (SAMPLES (serve urlparse reqs startup)) <= 1000)%nat.
Proof.
  change 1000%nat with MAX_SAMPLES.
  assert (length (SAMPLES startup) <= MAX_SAMPLES)%nat as Hst
    by (cbn; unfold MAX_SAMPLES; lia).
  revert Hst. generalize startup.
  induction reqs as [|[req clock] reqs IH]; intros st Hst; [exact Hst|].
  cbn [serve fold_left]. apply IH. now apply check_link_samples_step.
Qed.

(** X2. A request whose [url] is a string with something other than
    whitespace is answered 200 with the classification of the stripped
    string; that result is appended to [SAMPLES], and the oldest sample is
    dropped exactly when [SAMPLES] already held 1000. *)
Theorem accepted_check_is_stored req clock st d s :
  get_json req = Return (PyDict d) ->
  d !! "url" = Some (PyStr s) ->
  blank s = false ->
  exists result,
    classify_link urlparse (Str.strip s) clock = Return result /\
    url result = Str.strip s /\
    fst (api_check_link urlparse req clock st) = Return (jsonify result, 200%Z) /\
    SAMPLES (snd (api_check_link urlparse req clock st)) =
      (if (1000 <=? length (SAMPLES st))%nat then tl (SAMPLES st) else SAMPLES st)
      ++ [result].
Proof.
  intros Hjson Hd Hs.
  destruct (parse_hostname_returns urlparse (Str.strip s)) as [h Hh].
  pose proof (classify_link_rules urlparse (Str.strip s) clock h Hh) as Hc.
  eexists. split; [exact Hc|].
  rewrite (check_link_accepts req clock st d s _ Hjson Hd Hs Hc).
  cbn [fst snd SAMPLES url]. rewrite pop_oldest. repeat split.
Qed.

(** X3. [/api/latest] leaves the state alone and returns the newest
    samples in their stored order: all of them up to 200, the last 200
    beyond that. *)
Theorem latest_returns_newest_200 st :
  exists older recent,
    SAMPLES st = older ++ recent /\
    length recent = Nat.min 200 (length (SAMPLES st)) /\
    api_latest st =
      ((PyDict {["samples" := PyList (jsonify <$> recent)]}, 200%Z), st).
Proof.
  exists (firstn (length (SAMPLES st) - 200) (SAMPLES st)),
         (skipn (length (SAMPLES st) - 200) (SAMPLES st)).
  split; [symmetry; apply firstn_skipn|].
  split; [rewrite length_skipn; lia|].
  unfold api_latest. now rewrite slice_last_200.
Qed.

(** X4. After an accepted [/api/check_link] request, [/api/latest] lists
    the fresh result as its last sample. *)
Theorem accepted_check_shows_in_latest req clock st d s :
  get_json req = Return (PyDict d) ->
  d !! "url" = Some (PyStr s) ->
  blank s = false ->
  exists result earlier,
    classify_link urlparse (Str.strip s) clock = Return result /\
    fst (api_latest (snd (api_check_link urlparse req clock st))) =
      (PyDict {["samples" := PyList (earlier ++ [jsonify result])]}, 200%Z).
Proof.
  intros Hjson Hd Hs.
  destruct (classify_link_returns (Str.strip s) clock) as [result Hc].
  rewrite (check_link_accepts req clock st d s result Hjson Hd Hs Hc).
  cbn [snd]. unfold api_latest. cbn [fst SAMPLES].
  rewrite pop_oldest, slice_last_200.
  set (l := if (MAX_SAMPLES <=? length (SAMPLES st))%nat then tl (SAMPLES st) else SAMPLES st).
  exists result, (jsonify <$> skipn (length (l ++ [result]) - 200) l).
  split; [exact Hc|].
  rewrite skipn_app, length_app. cbn [length].
  replace (length l + 1 - 200 - length l)%nat with 0%nat by lia.
  cbn [skipn]. now rewrite fmap_app.
Qed.

(** X5. A body that is not a JSON object (and not empty), or an object
    whose [url] is not a string, makes the handler raise [AttributeError]
    before anything is classified or stored. *)
Theorem non_string_url_raises req clock st payload :
  get_json req = Return payload ->
  (truthy payload = true /\ (forall d, payload <> PyDict d)) \/
  (exists d v, payload = PyDict d /\ d !! "url" = Some v /\ forall s, v <> PyStr s) ->
  api_check_link urlparse req clock st = (Raise AttributeError, st).
Proof.
  intros Hjson Hbad. unfold api_check_link. rewrite Hjson.
  cbn [mbind result_bind]. cbv zeta.
  destruct Hbad as [[Ht Hnd]|(d & v & -> & Hd & Hv)].
  - unfold py_or. rewrite Ht.
    destruct payload; try reflexivity. now destruct (Hnd d).
  - assert (py_or (PyDict d) (PyDict ∅) = PyDict d) as ->.
    { unfold py_or. destruct (truthy (PyDict d)) eqn:Ht; [reflexivity|].
      cbn [truthy] in Ht. apply negb_false_iff, bool_decide_eq_true in Ht.
      subst d. rewrite lookup_empty in Hd. discriminate. }
    cbn [py_get]. rewrite Hd. cbn [mbind result_bind].
    destruct v; try reflexivity. now destruct (Hv s).
Qed.

(** X6. Every outcome of the handler is one of two kinds: the 400 response
    or an exception, with [SAMPLES] untouched; or a 200 response carrying a
    result that is now the newest sample. *)
Theorem check_link_outcomes req clock st :
  (SAMPLES (snd (api_check_link urlparse req clock st)) = SAMPLES st /\
   (fst (api_check_link urlparse req clock st) = Return missing_url_response \/
    exists e, fst (api_check_link urlparse req clock st) = Raise e)) \/
  (exists result,
     fst (api_check_link urlparse req clock st) = Return (jsonify result, 200%Z) /\
     last (SAMPLES (snd (api_check_link urlparse req clock st))) = Some result).
Proof.
  unfold api_check_link.
  destruct (_ ← get_json req; _) as [u|e]; [|left; cbn; eauto].
  destruct (negb (Str.truthy u)); [left; cbn; eauto|].
  destruct (classify_link urlparse u clock) as [result|e]; [|left; cbn; eauto].
  right. exists result. cbn [fst snd SAMPLES]. split; [reflexivity|].
  rewrite pop_oldest. apply last_snoc.
Qed.

End ServiceFacts.

(** ** Lower case and padding *)

Lemma chr_lower_idem c : Chr.lower (Chr.lower c) = Chr.lower c.
Proof. destruct c as [[] [] [] [] [] [] [] []]; reflexivity. Qed.

Lemma lower_idem s : Str.lower (Str.lower s) = Str.lower s.
Proof. induction s as [|c s IH]; simpl; [reflexivity|]. now rewrite chr_lower_idem, IH. Qed.

Lemma lstrip_blank s : blank s = true -> Str.lstrip s = EmptyString.
Proof.
  unfold blank. induction s as [|c s IH]; simpl; [reflexivity|].
  intros [-> H]%andb_true_iff. now apply IH.
Qed.

Lemma lstrip_app_blank ws s : blank ws = true -> Str.lstrip (ws +:+ s) = Str.lstrip s.
Proof.
  unfold blank. induction ws as [|c ws IH]; simpl; [reflexivity|].
  intros [-> H]%andb_true_iff. now apply IH.
Qed.

Lemma rstrip_blank ws : blank ws = true -> Str.rstrip ws = EmptyString.
Proof.
  unfold blank. induction ws as [|c ws IH]; simpl; [reflexivity|].
  intros [-> H]%andb_true_iff. now rewrite IH.
Qed.

Lemma rstrip_app_blank s ws : blank ws = true -> Str.rstrip (s +:+ ws) = Str.rstrip s.
Proof.
  intros Hws. induction s as [|c s IH]; simpl.
  - now apply rstrip_blank.
  - now rewrite IH.
Qed.

Lemma strip_app_blank s ws : blank ws = true -> Str.strip (s +:+ ws) = Str.strip s.
Proof.
  intros Hws. unfold Str.strip. induction s as [|c s IH].
  - change (EmptyString +:+ ws) with ws. now rewrite (lstrip_blank ws Hws).
  - change (String c s +:+ ws) with (String c (s +:+ ws)).
    cbn [Str.lstrip]. destruct (Chr.isspace c); [exact IH|].
    exact (rstrip_app_blank (String c s) ws Hws).
Qed.

Lemma strip_padding ws1 s ws2 :
  blank ws1 = true -> blank ws2 = true -> Str.strip (ws1 +:+ s +:+ ws2) = Str.strip s.
Proof.
  intros H1 H2. unfold Str.strip at 1. rewrite (lstrip_app_blank ws1 _ H1).
  exact (strip_app_blank s ws2 H2).
Qed.

Section HostFacts.
Variable urlparse : string -> result urllib.ParseResult.

(** X7. The host [parse_hostname] returns is in lower case, on the parsed
    path and on the fallback path alike. *)
Theorem host_is_lowercase url :
  exists h, parse_hostname urlparse url = Return h /\ Str.lower h = h.
Proof.
  unfold parse_hostname.
  destruct (Str.truthy (Str.strip url)); cbn [negb]; [|eexists; split; reflexivity].
  destruct (urlparse _) as [p|e]; cbn [try_except mbind result_bind].
  - eexists. split; [reflexivity | apply lower_idem].
  - destruct (split_on_cons (Chr.eqb "/") (Str.strip url)) as (p & rest & E).
    unfold Str.split. rewrite E, getitem_0. cbn [mbind result_bind].
    eexists. split; [reflexivity | apply lower_idem].
Qed.

(** X8. Whitespace around the input does not change the host. *)
Theorem host_ignores_padding ws1 url ws2 :
  blank ws1 = true -> blank ws2 = true ->
  parse_hostname urlparse (ws1 +:+ url +:+ ws2) = parse_hostname urlparse url.
Proof.
  intros H1 H2. unfold parse_hostname. now rewrite (strip_padding ws1 url ws2 H1 H2).
Qed.

End HostFacts.

(** ** Reasons and deltas rule by rule *)

Lemma texts_by_rule (url host : string) (rules : list (string * Rules.rule)) :
  (fun x : string * Rules.contribution => snd (snd x)) <$>
     omap (fun '(id, r) => match r url host with Some c => Some (id, c) | None => None end) rules
  = flat_map (fun '(_, r) => reason_of (r url host)) rules.
Proof.
  induction rules as [|[id r] rules IH]; [reflexivity|].
  cbn [omap list_omap flat_map].
  destruct (r url host) as [[d t]|]; cbn [fmap list_fmap reason_of snd app]; now rewrite IH.
Qed.

Lemma reasons_by_rule url host :
  Rules.texts url host =
  reason_of (Rules.rule1 url host) ++ reason_of (Rules.rule2 url host) ++
  reason_of (Rules.rule3 url host) ++ reason_of (Rules.rule4a url host) ++
  reason_of (Rules.rule4b url host) ++ reason_of (Rules.rule4c url host) ++
  reason_of (Rules.rule4d url host) ++ reason_of (Rules.rule5 url host) ++
  reason_of (Rules.rule6 url host) ++ reason_of (Rules.rule7 url host).
Proof.
  unfold Rules.texts, Rules.fired. rewrite texts_by_rule.
  unfold Rules.RULES. cbn [flat_map]. now rewrite app_nil_r.
Qed.

Lemma sum_by_rule url host :
  Rules.sum (Rules.deltas url host) =
  (Rules.delta_of (Rules.rule1 url host) + (Rules.delta_of (Rules.rule2 url host) +
  (Rules.delta_of (Rules.rule3 url host) + (Rules.delta_of (Rules.rule4a url host) +
  (Rules.delta_of (Rules.rule4b url host) + (Rules.delta_of (Rules.rule4c url host) +
  (Rules.delta_of (Rules.rule4d url host) + (Rules.delta_of (Rules.rule5 url host) +
  (Rules.delta_of (Rules.rule6 url host) + (Rules.delta_of (Rules.rule7 url host) + 0))))))))))%Z.
Proof.
  unfold Rules.deltas, Rules.fired. rewrite sum_deltas_rules. reflexivity.
Qed.

Lemma when_delta_nonneg c d t : (0 <= d)%Z -> (0 <= Rules.delta_of (Rules.when c d t))%Z.
Proof. destruct c; simpl; lia. Qed.

Lemma first_match_delta_nonneg l p d f :
  (0 <= d)%Z -> (0 <= Rules.delta_of (Rules.first_match l p d f))%Z.
Proof. unfold Rules.first_match. destruct (List.find p l); simpl; lia. Qed.

Lemma deltas_nonneg url host :
  (0 <= Rules.delta_of (Rules.rule1 url host))%Z /\
  (0 <= Rules.delta_of (Rules.rule2 url host))%Z /\
  (0 <= Rules.delta_of (Rules.rule3 url host))%Z /\
  (0 <= Rules.delta_of (Rules.rule4a url host))%Z /\
  (0 <= Rules.delta_of (Rules.rule4b url host))%Z /\
  (0 <= Rules.delta_of (Rules.rule4c url host))%Z /\
  (0 <= Rules.delta_of (Rules.rule4d url host))%Z /\
  (0 <= Rules.delta_of (Rules.rule5 url host))%Z /\
  (0 <= Rules.delta_of (Rules.rule6 url host))%Z /\
  (0 <= Rules.delta_of (Rules.rule7 url host))%Z.
Proof.
  unfold Rules.rule1, Rules.rule2, Rules.rule3, Rules.rule4a, Rules.rule4b,
    Rules.rule4c, Rules.rule4d, Rules.rule5, Rules.rule6, Rules.rule7.
  destruct (Rules.has_subdomain host);
    repeat split;
    first [apply when_delta_nonneg | apply first_match_delta_nonneg | simpl]; lia.
Qed.

Lemma find_first (p : string -> bool) l x :
  In x l -> p x = true ->
  exists y, List.find p l = Some y /\ In y l /\ p y = true.
Proof.
  intros Hin Hp. destruct (List.find p l) as [y|] eqn:E.
  - exists y. split; [reflexivity|]. now apply find_some in E.
  - now rewrite (find_none _ _ E x Hin) in Hp.
Qed.

Lemma find_first_split (p : string -> bool) l y :
  List.find p l = Some y ->
  exists l1 l2, l = l1 ++ y :: l2 /\ Forall (fun x => p x = false) l1.
Proof.
  induction l as [|a l IH]; [discriminate|].
  cbn [List.find]. destruct (p a) eqn:E.
  - intros [= <-]. exists [], l. split; [reflexivity | constructor].
  - intros (l1 & l2 & -> & H)%IH. exists (a :: l1), l2.
    split; [reflexivity | now constructor].
Qed.

Lemma level_of_not_safe s : (35 <= s)%Z -> Rules.level_of s <> "SAFE".
Proof.
  unfold Rules.level_of. intros Hs.
  destruct (70 <=? s)%Z; [discriminate|].
  destruct (Z.leb_spec 35 s); [discriminate | lia].
Qed.

(** ** The port pattern *)

Lemma upto_accepts m n prev s : re.upto m n prev s (fun _ _ => true) = true.
Proof. destruct n; simpl; [reflexivity | apply orb_true_r]. Qed.

Lemma port_match_here prev s :
  re.match_here PORT_RE prev s = true <->
  exists d1 d2 rest,
    s = String ":" (String d1 (String d2 rest)) /\
    Chr.is_digit d1 = true /\ Chr.is_digit d2 = true.
Proof.
  unfold re.match_here, PORT_RE.
  cbn [re.compile re.exactly Nat.sub].
  split.
  - destruct s as [|c s]; cbn [re.one]; [intros [=]|].
    destruct (Chr.eqb ":" c) eqn:Ec; [|intros [=]].
    apply Ascii.eqb_eq in Ec. subst c.
    destruct s as [|d1 s]; cbn [re.one]; [intros [=]|].
    destruct (Chr.is_digit d1) eqn:E1; [|intros [=]].
    destruct s as [|d2 s]; cbn [re.one]; [intros [=]|].
    destruct (Chr.is_digit d2) eqn:E2; [|intros [=]].
    intros _. eauto 6.
  - intros (d1 & d2 & rest & -> & E1 & E2).
    cbn [re.one]. unfold Chr.eqb. rewrite Ascii.eqb_refl, E1, E2.
    apply upto_accepts.
Qed.

Lemma port_search_from prev s :
  re.search_from PORT_RE prev s = true <-> colon_two_digits s.
Proof.
  revert prev. induction s as [|c s IH]; intros prev; cbn [re.search_from].
  - rewrite orb_false_r, port_match_here. split.
    + intros (? & ? & ? & [=] & _).
    + intros (a & d1 & d2 & b & E & _). destruct a; discriminate E.
  - rewrite orb_true_iff, port_match_here, IH. split.
    + intros [(d1 & d2 & rest & E & H1 & H2)|(a & d1 & d2 & b & E & H1 & H2)].
      * exists EmptyString, d1, d2, rest. auto.
      * exists (String c a), d1, d2, b. split; [simpl; now rewrite E | auto].
    + intros (a & d1 & d2 & b & E & H1 & H2). destruct a as [|c' a].
      * left. exists d1, d2, b. auto.
      * right. simpl in E. injection E as -> ->. exists a, d1, d2, b. auto.
Qed.

(** ** Which rule a reason comes from *)

Lemma in_reason_when c d t x :
  In x (reason_of (Rules.when c d t)) <-> c = true /\ x = t.
Proof.
  destruct c; simpl; split.
  - intros [<-|[]]. auto.
  - intros [_ ->]. now left.
  - intros [].
  - intros [[=] _].
Qed.

Lemma in_reason_first l p d f x :
  In x (reason_of (Rules.first_match l p d f)) <->
  exists y, List.find p l = Some y /\ x = f y.
Proof.
  unfold Rules.first_match. destruct (List.find p l) as [y|]; simpl; split.
  - intros [<-|[]]. eauto.
  - intros (y' & [= <-] & ->). now left.
  - intros [].
  - intros (y' & [=] & _).
Qed.

Lemma in_reason_rule4d url host x :
  In x (reason_of (Rules.rule4d url host)) ->
  Rules.has_subdomain host = true /\
  exists b, x = "Brand impersonation detected: '" +:+ b +:+
                "' appears in subdomain while parent domain is not '" +:+ b +:+ "'".
Proof.
  unfold Rules.rule4d. destruct (Rules.has_subdomain host); [|intros []].
  intros (b & _ & ->)%in_reason_first. eauto.
Qed.

(** A reason found in the list comes from one of the ten evaluators. *)
Lemma in_reasons url host x :
  In x (Rules.texts url host) <->
  In x (reason_of (Rules.rule1 url host)) \/ In x (reason_of (Rules.rule2 url host)) \/
  In x (reason_of (Rules.rule3 url host)) \/ In x (reason_of (Rules.rule4a url host)) \/
  In x (reason_of (Rules.rule4b url host)) \/ In x (reason_of (Rules.rule4c url host)) \/
  In x (reason_of (Rules.rule4d url host)) \/ In x (reason_of (Rules.rule5 url host)) \/
  In x (reason_of (Rules.rule6 url host)) \/ In x (reason_of (Rules.rule7 url host)).
Proof. rewrite reasons_by_rule, !in_app_iff. reflexivity. Qed.

(** The origin of a reason, as an equation on its text. *)
Lemma reason_origin url host x :
  In x (Rules.texts url host) ->
  (re.search IP_RE host = true /\
   x = "Direct IP address used in host (not a normal domain)") \/
  (re.search PORT_RE url = true /\
   x = "Explicit port present in URL (uncommon for legitimate sites)") \/
  (exists eh, x = "Hosted on ephemeral/third-party platform: " +:+ eh) \/
  (Rules.has_subdomain host = true /\
   x = "Very long subdomain (unusually long host label)") \/
  (Rules.has_subdomain host = true /\
   x = "Multiple hyphens in subdomain (common in phishing hosts)") \/
  (Rules.has_subdomain host = true /\
   x = "Multi-word / token-rich subdomain (likely not a normal brand hostname)") \/
  (Rules.has_subdomain host = true /\
   exists b, x = "Brand impersonation detected: '" +:+ b +:+
                 "' appears in subdomain while parent domain is not '" +:+ b +:+ "'") \/
  (Str.contains "xn--" host = true /\
   x = "Punycode/IDN detected (possible homoglyph / homograph attack)") \/
  (exists s, x = "Uses known link shortener: " +:+ s) \/
  (exists k, In k PHISH_KEYWORDS /\ Str.contains k (Str.lower url) = true /\
             x = "Contains phishing-related keyword: '" +:+ k +:+ "'").
Proof.
  rewrite in_reasons.
  unfold Rules.rule1, Rules.rule2, Rules.rule3, Rules.rule4a, Rules.rule4b,
    Rules.rule4c, Rules.rule5, Rules.rule6, Rules.rule7.
  rewrite !in_reason_when, !in_reason_first, !andb_true_iff.
  intros [H|[H|[H|[H|[H|[H|[H|[H|[H|H]]]]]]]]].
  - auto.
  - auto.
  - destruct H as (eh & _ & ->). eauto 10.
  - destruct H as [[Hs _] ->]. auto 10.
  - destruct H as [[Hs _] ->]. auto 10.
  - destruct H as [[Hs _] ->]. auto 10.
  - apply in_reason_rule4d in H. auto 10.
  - auto 10.
  - destruct H as (s & _ & ->). do 8 right. left. eauto.
  - destruct H as (k & Hk & ->). do 9 right. exists k.
    apply find_some in Hk. tauto.
Qed.

(** ** Labels *)

Lemma length_split c s : length (Str.split c s) = S (Str.count c s).
Proof.
  unfold Str.split. induction s as [|a s IH]; [reflexivity|].
  cbn [Str.split_on Str.count]. unfold Chr.eqb in *. rewrite (Ascii.eqb_sym a c).
  destruct (Ascii.eqb c a).
  - cbn [length]. now rewrite IH.
  - destruct (Str.split_on (Ascii.eqb c) s) eqn:E; cbn [length] in *; [discriminate IH|].
    exact IH.
Qed.

Lemma few_dots_no_subdomain h :
  (Str.count "." h < 2)%nat -> Rules.has_subdomain h = false.
Proof.
  intros Hc. unfold Rules.has_subdomain, Rules.labels_of. apply Nat.leb_gt.
  destruct (Str.truthy h); [rewrite length_split | cbn [length]]; lia.
Qed.

(** ** Blank input *)

Lemma chr_lower_space c : Chr.isspace c = true -> Chr.lower c = c.
Proof.
  destruct c as [[] [] [] [] [] [] [] []]; intros H; try discriminate H; reflexivity.
Qed.

Lemma lower_blank s : blank s = true -> Str.lower s = s.
Proof.
  unfold blank. induction s as [|c s IH]; simpl; [reflexivity|].
  intros [Hc H]%andb_true_iff. now rewrite (chr_lower_space c Hc), IH.
Qed.

Lemma contains_blank c k s :
  blank s = true -> Chr.isspace c = false -> Str.contains (String c k) s = false.
Proof.
  unfold blank. intros Hs Hc. induction s as [|a s IH]; [reflexivity|].
  simpl in Hs. apply andb_true_iff in Hs as [Ha Hs].
  cbn [Str.contains Str.startswith]. rewrite (IH Hs), orb_false_r.
  unfold Chr.eqb. destruct (Ascii.eqb c a) eqn:E; [|reflexivity].
  apply Ascii.eqb_eq in E. congruence.
Qed.

Lemma find_contains_blank l s :
  blank s = true ->
  Forall (fun k => exists c k', k = String c k' /\ Chr.isspace c = false) l ->
  List.find (fun k => Str.contains k s) l = None.
Proof.
  intros Hs. induction 1 as [|k l (c & k' & -> & Hc) _ IH]; [reflexivity|].
  cbn [List.find]. now rewrite (contains_blank c k' s Hs Hc).
Qed.

Lemma all_app p a b : Str.all p (a +:+ b) = Str.all p a && Str.all p b.
Proof. induction a as [|c a IH]; simpl; [reflexivity|]. now rewrite IH, andb_assoc. Qed.

Lemma port_search_blank s : blank s = true -> re.search PORT_RE s = false.
Proof.
  intros Hs. destruct (re.search PORT_RE s) eqn:E; [|reflexivity].
  apply port_search_from in E as (a & d1 & d2 & b & -> & _).
  unfold blank in Hs. rewrite all_app in Hs. simpl in Hs.
  rewrite andb_false_r in Hs. discriminate Hs.
Qed.

Section ClassifierFacts.
Variable urlparse : string -> result urllib.ParseResult.

(** X9. The "Explicit port" reason is given exactly when the raw URL has a
    colon followed by two digits somewhere: more digits do not matter, and
    neither does where in the URL the colon stands. *)
Theorem port_reason_iff_colon_two_digits url clock :
  exists r,
    classify_link urlparse url clock = Return r /\
    (In "Explicit port present in URL (uncommon for legitimate sites)" (reasons r)
     <-> colon_two_digits url).
Proof.
  destruct (parse_hostname_returns urlparse url) as [h Hh].
  rewrite (classify_link_rules urlparse url clock h Hh).
  eexists. split; [reflexivity|]. cbn [reasons].
  rewrite <- (port_search_from None url). fold (re.search PORT_RE url). split.
  - intros H%reason_origin.
    destruct H as [[_ E]|[[Hc _]|[[eh E]|[[_ E]|[[_ E]|[[_ E]|[[_ [b E]]|[[_ E]|[[s E]|(k & _ & _ & E)]]]]]]]]];
      try discriminate E; try (simpl in E; discriminate E).
    exact Hc.
  - intros H. apply in_reasons. right. left.
    unfold Rules.rule2. apply in_reason_when. auto.
Qed.


(** X10. A phishing keyword anywhere in the URL, in any letter case, is
    always reported: the last reason names the first keyword of the list
    that occurs (no keyword before it in [PHISH_KEYWORDS] occurs), and the
    score is at least 15. *)
Theorem keyword_is_always_reported url clock k :
  In k PHISH_KEYWORDS ->
  Str.contains k (Str.lower url) = true ->
  exists r k' earlier later,
    classify_link urlparse url clock = Return r /\
    PHISH_KEYWORDS = earlier ++ k' :: later /\
    Forall (fun k0 => Str.contains k0 (Str.lower url) = false) earlier /\
    In k' PHISH_KEYWORDS /\ Str.contains k' (Str.lower url) = true /\
    last (reasons r) = Some ("Contains phishing-related keyword: '" +:+ k' +:+ "'") /\
    (15 <= score r)%Z.
Proof.
  intros Hin Hk.
  destruct (find_first (fun k => Str.contains k (Str.lower url)) _ k Hin Hk)
    as (k' & Hfind & Hin' & Hk').
  destruct (find_first_split _ _ _ Hfind) as (earlier & later & Hsplit & Hearlier).
  destruct (parse_hostname_returns urlparse url) as [h Hh].
  rewrite (classify_link_rules urlparse url clock h Hh).
  eexists _, k', earlier, later. split; [reflexivity|]. cbn [reasons score].
  split; [exact Hsplit|]. split; [exact Hearlier|].
  split; [exact Hin'|]. split; [exact Hk'|].
  assert (Rules.rule7 url h =
          Some (15%Z, "Contains phishing-related keyword: '" +:+ k' +:+ "'")) as H7.
  { unfold Rules.rule7, Rules.first_match. now rewrite Hfind. }
  split.
  - rewrite reasons_by_rule, H7. cbn [reason_of].
    rewrite !app_assoc. apply last_snoc.
  - pose proof (deltas_nonneg url h) as Hnn.
    rewrite sum_by_rule, H7. cbn [Rules.delta_of]. unfold Rules.clamp. lia.
Qed.

(** X11. A host that is, or is a subdomain of, one of the
    [SUSPICIOUS_HOSTINGS] is never rated SAFE: the hosting reason is given
    and the score is at least 35. *)
Theorem ephemeral_host_is_never_safe url clock h eh :
  parse_hostname urlparse url = Return h ->
  In eh SUSPICIOUS_HOSTINGS ->
  h = eh \/ Str.endswith h ("." +:+ eh) = true ->
  exists r eh',
    classify_link urlparse url clock = Return r /\
    In eh' SUSPICIOUS_HOSTINGS /\
    In ("Hosted on ephemeral/third-party platform: " +:+ eh') (reasons r) /\
    (35 <= score r)%Z /\ level r <> "SAFE".
Proof.
  intros Hh Hin Hmatch.
  assert ((String.eqb h eh || Str.endswith h ("." +:+ eh)) = true) as Hp.
  { destruct Hmatch as [-> | ->]; [now rewrite String.eqb_refl | apply orb_true_r]. }
  destruct (find_first (fun eh => String.eqb h eh || Str.endswith h ("." +:+ eh))
              _ eh Hin Hp) as (eh' & Hfind & Hin' & _).
  rewrite (classify_link_rules urlparse url clock h Hh).
  eexists _, eh'. split; [reflexivity|]. cbn [reasons score level].
  split; [exact Hin'|].
  assert (Rules.rule3 url h =
          Some (35%Z, "Hosted on ephemeral/third-party platform: " +:+ eh')) as H3.
  { unfold Rules.rule3, Rules.first_match. now rewrite Hfind. }
  assert (35 <= Rules.clamp (Rules.sum (Rules.deltas url h)))%Z as Hscore.
  { pose proof (deltas_nonneg url h) as Hnn.
    rewrite sum_by_rule, H3. cbn [Rules.delta_of]. unfold Rules.clamp. lia. }
  split; [|split; [exact Hscore | now apply level_of_not_safe]].
  apply in_reasons. right. right. left. rewrite H3. now left.
Qed.


(** X12. A host with at most one dot (fewer than three labels) never gets
    one of the four subdomain reasons, brand impersonation included. *)
Theorem no_subdomain_reasons_below_three_labels url clock h :
  parse_hostname urlparse url = Return h ->
  (Str.count "." h < 2)%nat ->
  exists r,
    classify_link urlparse url clock = Return r /\
    forall t, In t (reasons r) ->
      t <> "Very long subdomain (unusually long host label)" /\
      t <> "Multiple hyphens in subdomain (common in phishing hosts)" /\
      t <> "Multi-word / token-rich subdomain (likely not a normal brand hostname)" /\
      forall b, t <> "Brand impersonation detected: '" +:+ b +:+
                     "' appears in subdomain while parent domain is not '" +:+ b +:+ "'".
Proof.
  intros Hh Hdots. apply few_dots_no_subdomain in Hdots.
  rewrite (classify_link_rules urlparse url clock h Hh).
  eexists. split; [reflexivity|]. cbn [reasons].
  intros t H%reason_origin.
  destruct H as [[_ E]|[[_ E]|[[eh E]|[[Hs _]|[[Hs _]|[[Hs _]|[[Hs _]|[[_ E]|[[s E]|(k & _ & _ & E)]]]]]]]]];
    try congruence; subst t;
    (repeat split; [..|intros b]; intros E; simpl in E; discriminate E).
Qed.

(** X13. A string of whitespace only classifies like the empty string:
    empty host, score 0, level SAFE, no reasons. *)
Theorem blank_input_is_safe url clock :
  blank url = true ->
  classify_link urlparse url clock =
  Return {| url := url; host := EmptyString; score := 0; level := "SAFE";
            reasons := []; ts := clock |}.
Proof.
  intros Hb.
  assert (parse_hostname urlparse url = Return EmptyString) as Hh.
  { unfold parse_hostname. now rewrite (strip_blank url Hb). }
  rewrite (classify_link_rules urlparse url clock _ Hh).
  assert (Rules.fired url EmptyString = []) as Hfired.
  { unfold Rules.fired, Rules.RULES. cbn [omap list_omap].
    assert (Rules.rule2 url EmptyString = None) as ->
      by (unfold Rules.rule2; now rewrite (port_search_blank url Hb)).
    assert (Rules.rule6 url EmptyString = None) as ->.
    { unfold Rules.rule6, Rules.first_match. rewrite (lower_blank url Hb).
      rewrite find_contains_blank; [reflexivity | exact Hb |].
      unfold SHORTENERS. repeat constructor; eexists _, _; split; reflexivity. }
    assert (Rules.rule7 url EmptyString = None) as ->.
    { unfold Rules.rule7, Rules.first_match. rewrite (lower_blank url Hb).
      rewrite find_contains_blank; [reflexivity | exact Hb |].
      unfold PHISH_KEYWORDS. repeat constructor; eexists _, _; split; reflexivity. }
    reflexivity. }
  unfold Rules.deltas, Rules.texts. rewrite Hfired. reflexivity.
Qed.

End ClassifierFacts.

(** ** The IP pattern on dotted quads *)

Lemma digit_is_word c : Chr.is_digit c = true -> Chr.is_word c = true.
Proof. unfold Chr.is_word, Chr.is_digit. now intros ->. Qed.

Lemma digit_group_head ds :
  digit_group ds = true -> exists d rest, ds = String d rest /\ Chr.is_digit d = true.
Proof.
  unfold digit_group. destruct ds as [|d rest]; [discriminate|].
  simpl. intros H. apply andb_true_iff in H as [H _]. apply andb_true_iff in H as [H _].
  apply andb_true_iff in H as [H _]. eauto.
Qed.

Lemma append_cons c s t : String c s +:+ t = String c (s +:+ t).
Proof. reflexivity. Qed.

Lemma append_nil t : EmptyString +:+ t = t.
Proof. reflexivity. Qed.

Lemma append_nil_r s : s +:+ EmptyString = s.
Proof. induction s as [|c s IH]; [reflexivity|]. now rewrite append_cons, IH. Qed.

(** [\d{1,3}] can consume exactly a group of one to three digits. *)
Lemma digits_then ds prev rest (k : re.cont) :
  digit_group ds = true ->
  (forall p, Chr.is_digit p = true -> k (Some p) rest = true) ->
  re.compile (re.Repeat 1 3 re.Digit) prev (ds +:+ rest) k = true.
Proof.
  unfold digit_group. intros Hds Hk.
  apply andb_true_iff in Hds as [Hds Hmax]. apply andb_true_iff in Hds as [Hall Hmin].
  destruct ds as [|d1 [|d2 [|d3 [|d4 ds]]]];
    try (cbn in Hmin; discriminate Hmin); try (cbn in Hmax; discriminate Hmax);
    clear Hmin Hmax; simpl in Hall; repeat (apply andb_true_iff in Hall as [? Hall]);
    cbn [re.compile re.exactly re.upto Nat.sub]; rewrite ?append_cons, ?append_nil;
    repeat (cbn [re.one];
            match goal with
            | H : Chr.is_digit ?c = true |- context [Chr.is_digit ?c] => rewrite H
            end);
    cbv beta iota.
  - rewrite (Hk d1) by assumption. apply orb_true_r.
  - rewrite (Hk d2) by assumption. rewrite orb_true_r. reflexivity.
  - rewrite (Hk d3) by assumption. reflexivity.
Qed.

Lemma compile_seq r1 r2 prev s k :
  re.compile (re.Seq r1 r2) prev s k
  = re.compile r1 prev s (fun p s' => re.compile r2 p s' k).
Proof. reflexivity. Qed.

Lemma compile_thrice r prev s k :
  re.compile (re.Repeat 3 3 r) prev s k
  = re.compile r prev s (fun p1 s1 =>
      re.compile r p1 s1 (fun p2 s2 => re.compile r p2 s2 (fun p3 s3 => k p3 s3))).
Proof. reflexivity. Qed.

Lemma compile_lit c prev s k : re.compile (re.Lit c) prev (String c s) k = k (Some c) s.
Proof. cbn [re.compile re.one]. unfold Chr.eqb. now rewrite Ascii.eqb_refl. Qed.

(** One [\.\d{1,3}] step of the pattern. *)
Lemma dot_digits_then ds prev rest (k : re.cont) :
  digit_group ds = true ->
  (forall p, Chr.is_digit p = true -> k (Some p) rest = true) ->
  re.compile (re.Seq (re.Lit ".") (re.Repeat 1 3 re.Digit)) prev
    ("." +:+ ds +:+ rest) k = true.
Proof.
  intros Hds Hk. rewrite compile_seq.
  change ("." +:+ ds +:+ rest) with (String "." (ds +:+ rest)).
  rewrite compile_lit. now apply digits_then.
Qed.

Lemma ip_re_matches_dotted_quad a b c d :
  digit_group a = true -> digit_group b = true ->
  digit_group c = true -> digit_group d = true ->
  re.search IP_RE (a +:+ "." +:+ b +:+ "." +:+ c +:+ "." +:+ d) = true.
Proof.
  intros Ha Hb Hc Hd.
  assert (re.match_here IP_RE None (a +:+ "." +:+ b +:+ "." +:+ c +:+ "." +:+ d) = true) as H.
  { unfold re.match_here, IP_RE. rewrite compile_seq.
    destruct (digit_group_head a Ha) as (a1 & a' & Ea & Ha1).
    cbn [re.compile]. unfold re.boundary at 1.
    assert (re.peek (a +:+ "." +:+ b +:+ "." +:+ c +:+ "." +:+ d) = Some a1) as ->
      by (rewrite Ea; reflexivity).
    cbn [re.is_word_at]. rewrite (digit_is_word a1 Ha1). cbn [xorb].
    change (re.compile (re.Seq (re.Repeat 1 3 re.Digit)
              (re.Seq (re.Repeat 3 3 (re.Seq (re.Lit ".") (re.Repeat 1 3 re.Digit)))
                 re.WordBoundary)) None
              (a +:+ "." +:+ b +:+ "." +:+ c +:+ "." +:+ d) (fun _ _ => true) = true).
    rewrite compile_seq. apply digits_then; [exact Ha|]. intros p1 _.
    rewrite compile_seq, compile_thrice.
    apply dot_digits_then; [exact Hb|]. intros p2 _.
    apply dot_digits_then; [exact Hc|]. intros p3 _.
    replace ("." +:+ d) with ("." +:+ d +:+ EmptyString) by now rewrite append_nil_r.
    apply dot_digits_then; [exact Hd|]. intros p4 Hp4.
    cbn [re.compile]. unfold re.boundary. cbn [re.is_word_at re.peek].
    now rewrite (digit_is_word p4 Hp4). }
  unfold re.search.
  destruct (a +:+ "." +:+ b +:+ "." +:+ c +:+ "." +:+ d); cbn [re.search_from]; now rewrite H.
Qed.

(** ** Dotted quads and bare inputs *)

Lemma rstrip_cons c s :
  Chr.isspace c = false -> Str.rstrip (String c s) = String c (Str.rstrip s).
Proof. intros Hc. cbn [Str.rstrip]. rewrite Hc. now destruct (Str.rstrip s). Qed.

Lemma strip_https u :
  Str.strip ("https://" +:+ Str.strip u) = "https://" +:+ Str.strip u.
Proof.
  unfold Str.strip at 1.
  change ("https://" +:+ Str.strip u) with
    (String "h" (String "t" (String "t" (String "p" (String "s" (String ":"
       (String "/" (String "/" (Str.strip u))))))))).
  cbn [Str.lstrip]. change (Chr.isspace "h") with false. cbv iota.
  rewrite !rstrip_cons by reflexivity.
  unfold Str.strip. now rewrite rstrip_idem.
Qed.

Section MoreFacts.
Variable urlparse : string -> result urllib.ParseResult.

(** X14. A host made of four dot-separated groups of one to three digits
    always gets the "Direct IP" reason first, scores at least 40 and is
    never SAFE, whether or not the groups are valid octets. *)
Theorem dotted_quad_host_is_flagged url clock a b c d :
  parse_hostname urlparse url = Return (a +:+ "." +:+ b +:+ "." +:+ c +:+ "." +:+ d) ->
  digit_group a = true -> digit_group b = true ->
  digit_group c = true -> digit_group d = true ->
  exists r,
    classify_link urlparse url clock = Return r /\
    head (reasons r) = Some "Direct IP address used in host (not a normal domain)" /\
    (40 <= score r)%Z /\ level r <> "SAFE".
Proof.
  intros Hh Ha Hb Hc Hd.
  rewrite (classify_link_rules urlparse url clock _ Hh).
  eexists. split; [reflexivity|]. cbn [reasons score level].
  set (h := a +:+ "." +:+ b +:+ "." +:+ c +:+ "." +:+ d) in *.
  assert (Rules.rule1 url h =
          Some (40%Z, "Direct IP address used in host (not a normal domain)")) as H1.
  { unfold Rules.rule1, h. now rewrite ip_re_matches_dotted_quad. }
  assert (40 <= Rules.clamp (Rules.sum (Rules.deltas url h)))%Z as Hscore.
  { pose proof (deltas_nonneg url h) as Hnn.
    rewrite sum_by_rule, H1. cbn [Rules.delta_of]. unfold Rules.clamp. lia. }
  split; [|split; [exact Hscore | apply level_of_not_safe; lia]].
  rewrite reasons_by_rule, H1. reflexivity.
Qed.

(** X16. An input without [://] is normalised like the same input with
    [https://] in front, whenever [urlparse] accepts the prefixed text. *)
Theorem bare_input_parses_as_https url parsed :
  Str.contains "://" (Str.strip url) = false ->
  Str.truthy (Str.strip url) = true ->
  urlparse ("https://" +:+ Str.strip url) = Return parsed ->
  parse_hostname urlparse url = parse_hostname urlparse ("https://" +:+ Str.strip url)
  /\ parse_hostname urlparse url = Return (Str.lower (or_empty (urllib.hostname parsed))).
Proof.
  intros Hno Hne Hp.
  assert (parse_hostname urlparse url
          = Return (Str.lower (or_empty (urllib.hostname parsed)))) as H1.
  { unfold parse_hostname. rewrite Hne, Hno. cbn [negb]. now rewrite Hp. }
  split; [|exact H1]. rewrite H1.
  unfold parse_hostname. rewrite strip_https.
  change (Str.truthy ("https://" +:+ Str.strip url)) with true. cbn [negb].
  assert (Str.contains "://" ("https://" +:+ Str.strip url) = true) as -> by reflexivity.
  now rewrite Hp.
Qed.

End MoreFacts.

(** ** No slash in the host *)

Lemma chr_lower_slash c : Chr.eqb (Chr.lower c) "/" = Chr.eqb c "/".
Proof. destruct c as [[] [] [] [] [] [] [] []]; reflexivity. Qed.

Lemma has_lower_slash s : Str.has "/" (Str.lower s) = Str.has "/" s.
Proof.
  induction s as [|c s IH]; [reflexivity|].
  cbn [Str.lower Str.has]. now rewrite chr_lower_slash, IH.
Qed.

Lemma has_app c a b : Str.has c (a +:+ b) = Str.has c a || Str.has c b.
Proof.
  induction a as [|x a IH]; [reflexivity|].
  rewrite append_cons. cbn [Str.has]. now rewrite IH, orb_assoc.
Qed.

Lemma partition_has x c s :
  Str.has x s = false ->
  Str.has x (fst (fst (Str.partition c s))) = false /\
  Str.has x (snd (Str.partition c s)) = false.
Proof.
  induction s as [|a s IH]; [auto|].
  cbn [Str.has Str.partition]. intros [Ha Hs]%orb_false_iff.
  destruct (Chr.eqb a c); [auto|].
  destruct (IH Hs) as [H1 H2]. destruct (Str.partition c s) as [[before found] after].
  cbn [fst snd Str.has] in *. now rewrite Ha, H1.
Qed.

Lemma rpartition_has x c s :
  Str.has x s = false -> Str.has x (snd (Str.rpartition c s)) = false.
Proof.
  induction s as [|a s IH]; [auto|].
  cbn [Str.has Str.rpartition]. intros [Ha Hs]%orb_false_iff.
  destruct (Str.has c s).
  - specialize (IH Hs). destruct (Str.rpartition c s) as [[before found] after].
    exact IH.
  - destruct (Chr.eqb a c); cbn [snd Str.has]; [exact Hs | now rewrite Ha, Hs].
Qed.

Lemma until_delim_no_slash s : Str.has "/" (fst (urllib.until_delim s)) = false.
Proof.
  induction s as [|c s IH]; [reflexivity|].
  cbn [urllib.until_delim].
  destruct (Chr.eqb c "/") eqn:E; [reflexivity|]. cbn [orb].
  destruct (Chr.eqb c "?" || Chr.eqb c "#"); [reflexivity|].
  destruct (urllib.until_delim s) as [dom rest]. cbn [fst Str.has] in *.
  now rewrite E, IH.
Qed.

Lemma split_first_no_sep c s p rest :
  Str.split c s = p :: rest -> Str.has c p = false.
Proof.
  unfold Str.split. revert p rest. induction s as [|a s IH]; intros p rest.
  - intros [= <- _]. reflexivity.
  - cbn [Str.split_on]. unfold Chr.eqb in *. destruct (Ascii.eqb c a) eqn:E.
    + intros [= <- _]. reflexivity.
    + destruct (Str.split_on (Ascii.eqb c) s) as [|q qs] eqn:Es.
      * intros [= <- _]. cbn [Str.has]. unfold Chr.eqb.
        now rewrite Ascii.eqb_sym, E.
      * intros [= <- _]. cbn [Str.has]. unfold Chr.eqb.
        rewrite Ascii.eqb_sym, E. exact (IH q qs eq_refl).
Qed.

Lemma urlsplit_netloc_no_slash url sch netloc path query fragment :
  urllib.urlsplit url = Return (sch, netloc, path, query, fragment) ->
  Str.has "/" netloc = false.
Proof.
  unfold urllib.urlsplit. cbv zeta.
  destruct (Str.partition ":" _) as [[before found] after].
  match goal with
  | |- (match ?m with _ => _ end) = _ -> _ => destruct m as [scheme url0]
  end.
  match goal with
  | |- context [mbind _ ?m] => destruct m as [[nl rest]|e] eqn:E
  end; cbn [mbind result_bind]; [|discriminate].
  assert (Str.has "/" nl = false) as Hnl.
  { revert E. destruct (Str.startswith _ "//").
    - unfold urllib._splitnetloc.
      match goal with
      | |- context [urllib.until_delim ?s] =>
          pose proof (until_delim_no_slash s) as Hs;
          destruct (urllib.until_delim s) as [dom r]
      end. cbn [fst] in Hs.
      match goal with
      | |- (if ?c then _ else _) = _ -> _ => destruct c; [discriminate|]
      end.
      match goal with
      | |- mbind _ ?m = _ -> _ => destruct m; cbn [mbind result_bind]; [|discriminate]
      end.
      now intros [= <- _].
    - now intros [= <- _]. }
  destruct (if Str.has "#" rest then _ else _) as [u1 f1].
  destruct (if Str.has "?" u1 then _ else _) as [u2 q2].
  cbn [urllib._checknetloc mbind result_bind].
  now intros [= _ <- _ _ _].
Qed.

Lemma hostname_no_slash p :
  Str.has "/" (urllib.netloc p) = false ->
  Str.has "/" (or_empty (urllib.hostname p)) = false.
Proof.
  intros Hn. unfold urllib.hostname, urllib._hostinfo.
  pose proof (rpartition_has "/" "@" _ Hn) as H1.
  destruct (Str.rpartition "@" (urllib.netloc p)) as [[? ?] hostinfo]. cbn [snd] in H1.
  destruct (partition_has "/" "[" _ H1) as [_ H2].
  destruct (partition_has "/" ":" _ H1) as [H3 _].
  destruct (Str.partition "[" hostinfo) as [[? have_open_br] bracketed]. cbn [snd] in H2.
  destruct (partition_has "/" "]" _ H2) as [H4 _].
  assert (Str.has "/" (fst (if have_open_br
            then let '(hostname, _, port) := Str.partition "]" bracketed in
                 let '(_, _, port0) := Str.partition ":" port in (hostname, port0)
            else let '(hostname, _, port) := Str.partition ":" hostinfo in
                 (hostname, port))) = false) as Hh.
  { destruct have_open_br.
    - destruct (Str.partition "]" bracketed) as [[hn ?] port].
      destruct (Str.partition ":" port) as [[? ?] ?]. exact H4.
    - destruct (Str.partition ":" hostinfo) as [[hn ?] port]. exact H3. }
  destruct (if have_open_br then _ else _) as [hn port]. cbn [fst] in *.
  destruct (Str.truthy hn); cbn [negb or_empty]; [|reflexivity].
  destruct (partition_has "/" "%" _ Hh) as [H5 H6].
  destruct (Str.partition "%" hn) as [[h0 percent] zone]. cbn [fst snd] in *.
  assert (Str.has "/" (Str.lower h0 +:+ (if percent then "%" else EmptyString) +:+ zone)
          = false) as Hres.
  { rewrite !has_app, has_lower_slash, H5, H6. now destruct percent. }
  cbn [or_empty]. destruct (Str.truthy _); [exact Hres | reflexivity].
Qed.

(** X15. With [urlparse] as the library has it, the host never contains a
    slash: neither on the parsed path nor on the fallback path. *)
Theorem host_has_no_slash url :
  exists h, parse_hostname urllib.urlparse url = Return h /\ Str.has "/" h = false.
Proof.
  unfold parse_hostname.
  destruct (Str.truthy (Str.strip url)); cbn [negb]; [|eexists; split; reflexivity].
  destruct (urllib.urlparse _) as [p|e] eqn:E; cbn [try_except mbind result_bind].
  - eexists. split; [reflexivity|]. rewrite has_lower_slash.
    apply hostname_no_slash.
    unfold urllib.urlparse in E.
    destruct (urllib.urlsplit _) as [[[[[sch nl] path] q] f]|e] eqn:Es;
      cbn [mbind result_bind] in E; [|discriminate].
    apply urlsplit_netloc_no_slash in Es.
    match type of E with
    | (match ?m with _ => _ end) = _ => destruct m as [u params]
    end.
    injection E as <-. exact Es.
  - destruct (split_on_cons (Chr.eqb "/") (Str.strip url)) as (p & rest & Es).
    pose proof (split_first_no_sep "/" (Str.strip url) p rest Es) as Hp.
    unfold Str.split. rewrite Es, getitem_0. cbn [mbind result_bind].
    eexists. split; [reflexivity|]. now rewrite has_lower_slash.
Qed.

(** ** How much one reason can add *)

Lemma rules_at_most_40 url host :
  Forall (fun '(_, r) => forall c : Rules.contribution, r url host = Some c -> (fst c <= 40)%Z)
    Rules.RULES.
Proof.
  unfold Rules.RULES.
  repeat apply List.Forall_cons; try apply List.Forall_nil; cbv beta iota; intros c;
    unfold Rules.rule1, Rules.rule2, Rules.rule3, Rules.rule4a, Rules.rule4b,
      Rules.rule4c, Rules.rule4d, Rules.rule5, Rules.rule6, Rules.rule7;
    try destruct (Rules.has_subdomain host); try discriminate;
    intros H; first [apply when_delta in H | apply first_match_delta in H];
    rewrite H; lia.
Qed.

Lemma deltas_at_most_40 url host :
  Forall (fun d => (d <= 40)%Z) (Rules.deltas url host).
Proof.
  unfold Rules.deltas, Rules.fired.
  pose proof (rules_at_most_40 url host) as H.
  induction H as [|[id r] rules Hr _ IH]; cbn; [constructor|].
  destruct (r url host) as [c|] eqn:E; cbn; [|exact IH].
  constructor; [now apply Hr | exact IH].
Qed.

Lemma sum_at_most l :
  Forall (fun d => (d <= 40)%Z) l -> (Rules.sum l <= 40 * Z.of_nat (length l))%Z.
Proof.
  unfold Rules.sum. induction 1 as [|d l Hd _ IH]; cbn [fold_right length]; lia.
Qed.

Section BoundsFacts.
Variable urlparse : string -> result urllib.ParseResult.

(** X17. No single reason is worth more than 40, so the score is at most
    40 times the number of reasons, and a HIGH rating always rests on at
    least two of them. *)
Theorem high_needs_two_reasons url clock r :
  classify_link urlparse url clock = Return r ->
  level r = "HIGH" ->
  (score r <= 40 * Z.of_nat (length (reasons r)))%Z /\
  (2 <= length (reasons r))%nat.
Proof.
  intros Hr Hhigh.
  destruct (parse_hostname_returns urlparse url) as [h Hh].
  rewrite (classify_link_rules urlparse url clock h Hh) in Hr.
  injection Hr as <-. cbn [score reasons level] in *.
  pose proof (sum_at_most _ (deltas_at_most_40 url h)) as Hsum.
  pose proof (sum_nonneg _ (fired_positive url h)) as Hnn.
  assert (length (Rules.texts url h) = length (Rules.deltas url h)) as Hlen
    by (unfold Rules.texts, Rules.deltas; now rewrite !length_fmap).
  rewrite Hlen.
  assert (70 <= Rules.clamp (Rules.sum (Rules.deltas url h)))%Z as H70.
  { unfold Rules.level_of in Hhigh.
    destruct (Z.leb_spec 70 (Rules.clamp (Rules.sum (Rules.deltas url h)))); [assumption|].
    destruct (35 <=? _)%Z; discriminate Hhigh. }
  unfold Rules.clamp in *. split; lia.
Qed.

(** X19. A shortener name is matched as a substring of the whole
    lowercased URL: wherever one occurs, the shortener reason is given and
    the score is at least 30. *)
Theorem shortener_substring_is_reported url clock s :
  In s SHORTENERS ->
  Str.contains s (Str.lower url) = true ->
  exists r s',
    classify_link urlparse url clock = Return r /\
    In s' SHORTENERS /\ Str.contains s' (Str.lower url) = true /\
    In ("Uses known link shortener: " +:+ s') (reasons r) /\
    (30 <= score r)%Z.
Proof.
  intros Hin Hs.
  destruct (find_first (fun s => Str.contains s (Str.lower url)) _ s Hin Hs)
    as (s' & Hfind & Hin' & Hs').
  destruct (parse_hostname_returns urlparse url) as [h Hh].
  rewrite (classify_link_rules urlparse url clock h Hh).
  eexists _, s'. split; [reflexivity|]. cbn [reasons score].
  split; [exact Hin'|]. split; [exact Hs'|].
  assert (Rules.rule6 url h = Some (30%Z, "Uses known link shortener: " +:+ s')) as H6.
  { unfold Rules.rule6, Rules.first_match. now rewrite Hfind. }
  split.
  - apply in_reasons. do 8 right. left. rewrite H6. now left.
  - pose proof (deltas_nonneg url h) as Hnn.
    rewrite sum_by_rule, H6. cbn [Rules.delta_of]. unfold Rules.clamp. lia.
Qed.

End BoundsFacts.

(** ** No port and no credentials in the host *)

Lemma chr_lower_colon c : Chr.eqb (Chr.lower c) ":" = Chr.eqb c ":".
Proof. destruct c as [[] [] [] [] [] [] [] []]; reflexivity. Qed.

Lemma chr_lower_at c : Chr.eqb (Chr.lower c) "@" = Chr.eqb c "@".
Proof. destruct c as [[] [] [] [] [] [] [] []]; reflexivity. Qed.

Lemma has_lower_colon s : Str.has ":" (Str.lower s) = Str.has ":" s.
Proof.
  induction s as [|c s IH]; [reflexivity|].
  cbn [Str.lower Str.has]. now rewrite chr_lower_colon, IH.
Qed.

Lemma has_lower_at s : Str.has "@" (Str.lower s) = Str.has "@" s.
Proof.
  induction s as [|c s IH]; [reflexivity|].
  cbn [Str.lower Str.has]. now rewrite chr_lower_at, IH.
Qed.

Lemma has_remove x c s : Str.has x s = false -> Str.has x (Str.remove c s) = false.
Proof.
  induction s as [|a s IH]; [auto|].
  cbn [Str.has Str.remove]. intros [Ha Hs]%orb_false_iff.
  destruct (Chr.eqb a c); cbn [Str.has]; rewrite ?Ha; auto.
Qed.

Lemma has_lstrip_chars x p s :
  Str.has x s = false -> Str.has x (Str.lstrip_chars p s) = false.
Proof.
  induction s as [|a s IH]; [auto|].
  cbn [Str.lstrip_chars]. destruct (p a); [|auto].
  cbn [Str.has]. intros [_ Hs]%orb_false_iff. auto.
Qed.

Lemma has_drop x n s : Str.has x s = false -> Str.has x (urllib.drop n s) = false.
Proof.
  revert s. induction n as [|n IH]; intros [|a s]; cbn [urllib.drop]; auto.
  cbn [Str.has]. intros [_ Hs]%orb_false_iff. auto.
Qed.

Lemma has_until_delim x s :
  Str.has x s = false ->
  Str.has x (fst (urllib.until_delim s)) = false /\
  Str.has x (snd (urllib.until_delim s)) = false.
Proof.
  induction s as [|a s IH]; [auto|].
  cbn [urllib.until_delim]. intros H.
  destruct (_ || _); [auto|].
  cbn [Str.has] in H. apply orb_false_iff in H as [Ha Hs].
  destruct (IH Hs) as [H1 H2]. destruct (urllib.until_delim s) as [dom rest].
  cbn [fst snd Str.has] in *. now rewrite Ha, H1.
Qed.

Lemma partition_not_found c s :
  Str.has c s = false -> Str.partition c s = (s, false, EmptyString).
Proof.
  induction s as [|a s IH]; [reflexivity|].
  cbn [Str.has Str.partition]. intros [Ha Hs]%orb_false_iff.
  now rewrite Ha, (IH Hs).
Qed.

Lemma partition_before_no_sep c s : Str.has c (fst (fst (Str.partition c s))) = false.
Proof.
  induction s as [|a s IH]; [reflexivity|].
  cbn [Str.partition]. destruct (Chr.eqb a c) eqn:E; [reflexivity|].
  destruct (Str.partition c s) as [[before found] after].
  cbn [fst Str.has] in *. now rewrite E, IH.
Qed.

Lemma rpartition_after_no_sep c s : Str.has c (snd (Str.rpartition c s)) = false.
Proof.
  induction s as [|a s IH]; [reflexivity|].
  cbn [Str.rpartition]. destruct (Str.has c s) eqn:E.
  - destruct (Str.rpartition c s) as [[before found] after]. exact IH.
  - destruct (Chr.eqb a c) eqn:Ea; cbn [snd Str.has]; [exact E | now rewrite Ea, E].
Qed.

Lemma has_lstrip x s : Str.has x s = false -> Str.has x (Str.lstrip s) = false.
Proof.
  induction s as [|a s IH]; [auto|].
  cbn [Str.lstrip]. destruct (Chr.isspace a); [|auto].
  cbn [Str.has]. intros [_ Hs]%orb_false_iff. auto.
Qed.

Lemma has_rstrip x s : Str.has x s = false -> Str.has x (Str.rstrip s) = false.
Proof.
  induction s as [|a s IH]; [auto|].
  cbn [Str.has Str.rstrip]. intros [Ha Hs]%orb_false_iff. specialize (IH Hs).
  destruct (Str.rstrip s).
  - destruct (Chr.isspace a); cbn [Str.has]; now rewrite ?Ha.
  - cbn [Str.has] in *. now rewrite Ha, IH.
Qed.

Lemma has_strip x s : Str.has x s = false -> Str.has x (Str.strip s) = false.
Proof. intros H. unfold Str.strip. now apply has_rstrip, has_lstrip. Qed.

(** Without brackets in it, [urlsplit] accepts any text, and the netloc
    has no bracket either. *)
Lemma urlsplit_without_brackets url :
  Str.has "[" url = false -> Str.has "]" url = false ->
  exists sch netloc path query fragment,
    urllib.urlsplit url = Return (sch, netloc, path, query, fragment) /\
    Str.has "[" netloc = false.
Proof.
  intros Ho Hc. unfold urllib.urlsplit. cbv zeta.
  set (u := Str.remove "010" (Str.remove "013" (Str.remove "009"
              (Str.lstrip_chars urllib.c0_control_or_space url)))).
  assert (Str.has "[" u = false) as Huo
    by (unfold u; now repeat apply has_remove; apply has_lstrip_chars).
  assert (Str.has "]" u = false) as Huc
    by (unfold u; now repeat apply has_remove; apply has_lstrip_chars).
  destruct (partition_has "[" ":" u Huo) as [_ Hao].
  destruct (partition_has "]" ":" u Huc) as [_ Hac].
  destruct (Str.partition ":" u) as [[before found] after]. cbn [snd] in Hao, Hac.
  assert (exists sch u0, (match before with
            | EmptyString => (EmptyString, u)
            | String c0 _ =>
                if found && Chr.is_ascii_alpha c0 && Str.all urllib.scheme_char before
                then (Str.lower before, after) else (EmptyString, u)
            end) = (sch, u0) /\ Str.has "[" u0 = false /\ Str.has "]" u0 = false)
    as (sch & u0 & -> & Hu0o & Hu0c).
  { destruct before as [|c0 b]; [eauto|]. destruct (_ && _); eauto. }
  destruct (Str.startswith u0 "//").
  - unfold urllib._splitnetloc.
    destruct (has_until_delim "[" _ (has_drop "[" 2 u0 Hu0o)) as [Hno _].
    destruct (has_until_delim "]" _ (has_drop "]" 2 u0 Hu0c)) as [Hnc _].
    destruct (urllib.until_delim (urllib.drop 2 u0)) as [netloc rest].
    cbn [fst] in Hno, Hnc. rewrite Hno, Hnc. cbn [andb orb mbind result_bind].
    match goal with
    | |- context [if Str.has "#" ?r then ?a else ?b] =>
        destruct (if Str.has "#" r then a else b) as [u1 f1]
    end.
    match goal with
    | |- context [if Str.has "?" ?r then ?a else ?b] =>
        destruct (if Str.has "?" r then a else b) as [u2 q2]
    end.
    cbn [urllib._checknetloc mbind result_bind]. eauto 10.
  - cbn [mbind result_bind].
    match goal with
    | |- context [if Str.has "#" ?r then ?a else ?b] =>
        destruct (if Str.has "#" r then a else b) as [u1 f1]
    end.
    match goal with
    | |- context [if Str.has "?" ?r then ?a else ?b] =>
        destruct (if Str.has "?" r then a else b) as [u2 q2]
    end.
    cbn [urllib._checknetloc mbind result_bind]. eauto 10.
Qed.

Lemma urlparse_without_brackets url :
  Str.has "[" url = false -> Str.has "]" url = false ->
  exists p, urllib.urlparse url = Return p /\ Str.has "[" (urllib.netloc p) = false.
Proof.
  intros Ho Hc. unfold urllib.urlparse.
  destruct (urlsplit_without_brackets url Ho Hc) as (sch & nl & path & q & f & -> & Hnl).
  cbn [mbind result_bind].
  match goal with
  | |- context [if ?c then ?a else ?b] => destruct (if c then a else b) as [u params]
  end.
  eauto.
Qed.

(** The host of a netloc without brackets: after the last [@], before the
    first colon. *)
Lemma hostname_without_brackets p :
  Str.has "[" (urllib.netloc p) = false ->
  Str.has ":" (or_empty (urllib.hostname p)) = false /\
  Str.has "@" (or_empty (urllib.hostname p)) = false.
Proof.
  intros Hn. unfold urllib.hostname, urllib._hostinfo.
  pose proof (rpartition_has "[" "@" _ Hn) as Hb.
  pose proof (rpartition_after_no_sep "@" (urllib.netloc p)) as Hat.
  destruct (Str.rpartition "@" (urllib.netloc p)) as [[? ?] hostinfo].
  cbn [snd] in Hb, Hat. rewrite (partition_not_found "[" hostinfo Hb).
  pose proof (partition_before_no_sep ":" hostinfo) as Hcolon.
  destruct (partition_has "@" ":" hostinfo Hat) as [Hat' _].
  destruct (Str.partition ":" hostinfo) as [[hn ?] port]. cbn [fst] in *.
  destruct (Str.truthy hn); cbn [negb or_empty]; [|auto].
  destruct (partition_has ":" "%" hn Hcolon) as [H1 H2].
  destruct (partition_has "@" "%" hn Hat') as [H3 H4].
  destruct (Str.partition "%" hn) as [[h0 percent] zone]. cbn [fst snd] in *.
  assert (Str.has ":" (Str.lower h0 +:+ (if percent then "%" else EmptyString) +:+ zone)
          = false /\
          Str.has "@" (Str.lower h0 +:+ (if percent then "%" else EmptyString) +:+ zone)
          = false) as [Hr1 Hr2].
  { rewrite !has_app, has_lower_colon, has_lower_at, H1, H2, H3, H4.
    now destruct percent. }
  cbn [or_empty]. destruct (Str.truthy _); auto.
Qed.

(** X18. For an ASCII input without square brackets, [urlparse] as the
    library has it never fails (on ASCII its normalisation check of the
    netloc returns at once), and the host carries no port and no
    credentials: it has neither a colon nor an [@]. *)
Theorem host_has_no_port_or_credentials url :
  isascii url = true ->
  Str.has "[" url = false -> Str.has "]" url = false ->
  exists h,
    parse_hostname urllib.urlparse url = Return h /\
    Str.has ":" h = false /\ Str.has "@" h = false.
Proof.
  intros _ Ho Hc. unfold parse_hostname.
  destruct (Str.truthy (Str.strip url)); cbn [negb]; [|eexists; repeat split].
  assert (Str.has "[" (Str.strip url) = false /\ Str.has "]" (Str.strip url) = false)
    as [Hso Hsc].
  { split; now apply has_strip. }
  set (arg := if Str.contains "://" (Str.strip url) then Str.strip url
              else "https://" +:+ Str.strip url).
  assert (Str.has "[" arg = false /\ Str.has "]" arg = false) as [Hao Hac].
  { unfold arg. destruct (Str.contains _ _); [auto|].
    rewrite !has_app, Hso, Hsc. auto. }
  destruct (urlparse_without_brackets arg Hao Hac) as (p & -> & Hn).
  cbn [try_except mbind result_bind].
  destruct (hostname_without_brackets p Hn) as [H1 H2].
  eexists. split; [reflexivity|]. now rewrite has_lower_colon, has_lower_at.
Qed.

(** ** Labels of a host: [split] and [join] *)

Lemma split_app_sep c a b :
  Str.split c (a +:+ String c b) = Str.split c a ++ Str.split c b.
Proof.
  unfold Str.split. induction a as [|x a IH].
  - change (EmptyString +:+ String c b) with (String c b).
    cbn [Str.split_on]. unfold Chr.eqb. now rewrite Ascii.eqb_refl.
  - rewrite append_cons. cbn [Str.split_on]. rewrite IH.
    destruct (Chr.eqb c x); [reflexivity|].
    destruct (split_on_cons (Chr.eqb c) a) as (p & rest & ->). reflexivity.
Qed.

Lemma split_no_sep c s : Str.has c s = false -> Str.split c s = [s].
Proof.
  unfold Str.split. induction s as [|a s IH]; [reflexivity|].
  cbn [Str.has Str.split_on]. intros [Ha Hs]%orb_false_iff.
  unfold Chr.eqb in *. rewrite Ascii.eqb_sym, Ha, (IH Hs). reflexivity.
Qed.

(** [c.join(s.split(c)) == s] *)
Lemma join_split c s : Str.join (String c EmptyString) (Str.split c s) = s.
Proof.
  unfold Str.join, Str.split. induction s as [|a s IH]; [reflexivity|].
  cbn [Str.split_on]. destruct (Chr.eqb c a) eqn:E.
  - apply Ascii.eqb_eq in E. subst a.
    destruct (split_on_cons (Chr.eqb c) s) as (p & rest & Es). rewrite Es in *.
    cbn [String.concat]. cbn [String.concat] in IH. now rewrite IH.
  - destruct (split_on_cons (Chr.eqb c) s) as (p & rest & Es). rewrite Es in *.
    destruct rest as [|q rest]; cbn [String.concat] in *; rewrite <- IH; reflexivity.
Qed.

Lemma labels_of_three_part sub sld tld :
  Str.has "." sld = false -> Str.has "." tld = false ->
  Rules.labels_of (sub +:+ "." +:+ sld +:+ "." +:+ tld) = Str.split "." sub ++ [sld; tld].
Proof.
  intros Hs Ht. unfold Rules.labels_of.
  assert (Str.truthy (sub +:+ "." +:+ sld +:+ "." +:+ tld) = true) as ->
    by (destruct sub; reflexivity).
  change (sub +:+ "." +:+ sld +:+ "." +:+ tld)
    with (sub +:+ String "." (sld +:+ String "." tld)).
  now rewrite !split_app_sep, (split_no_sep "." sld Hs), (split_no_sep "." tld Ht).
Qed.

Lemma three_part_host sub sld tld :
  Str.has "." sld = false -> Str.has "." tld = false ->
  Rules.has_subdomain (sub +:+ "." +:+ sld +:+ "." +:+ tld) = true /\
  Rules.subdomain (sub +:+ "." +:+ sld +:+ "." +:+ tld) = sub /\
  Rules.sld (sub +:+ "." +:+ sld +:+ "." +:+ tld) = sld.
Proof.
  intros Hs Ht. unfold Rules.has_subdomain, Rules.subdomain, Rules.sld.
  rewrite (labels_of_three_part sub sld tld Hs Ht).
  destruct (split_on_cons (Chr.eqb ".") sub) as (p & rest & E).
  rewrite length_app. cbn [length].
  replace (length (Str.split "." sub) + 2 - 2)%nat with (length (Str.split "." sub)) by lia.
  repeat split.
  - apply Nat.leb_le. unfold Str.split. rewrite E. cbn [length]. lia.
  - rewrite firstn_app, firstn_all, Nat.sub_diag. cbn [firstn].
    rewrite app_nil_r. apply (join_split "." sub).
  - rewrite app_nth2 by lia. now rewrite Nat.sub_diag.
Qed.

Section BrandFacts.
Variable urlparse : string -> result urllib.ParseResult.

(** X20. A brand token inside the subdomain of a host whose second-level
    label is not that brand always gives the brand-impersonation reason,
    a score of at least 40 and a level other than SAFE. *)
Theorem brand_in_subdomain_is_flagged url clock sub sld tld b :
  parse_hostname urlparse url = Return (sub +:+ "." +:+ sld +:+ "." +:+ tld) ->
  Str.has "." sld = false -> Str.has "." tld = false ->
  In b BRAND_TOKENS ->
  Str.contains b (Str.lower sub) = true ->
  b <> sld ->
  exists r b',
    classify_link urlparse url clock = Return r /\
    In b' BRAND_TOKENS /\
    In ("Brand impersonation detected: '" +:+ b' +:+
        "' appears in subdomain while parent domain is not '" +:+ b' +:+ "'")
       (reasons r) /\
    (40 <= score r)%Z /\ level r <> "SAFE".
Proof.
  intros Hh Hs Ht Hin Hb Hne.
  rewrite (classify_link_rules urlparse url clock _ Hh).
  set (h := sub +:+ "." +:+ sld +:+ "." +:+ tld) in *.
  destruct (three_part_host sub sld tld Hs Ht) as (Hsub & Esub & Esld). fold h in Hsub, Esub, Esld.
  assert ((Str.contains b (Str.lower (Rules.subdomain h)) && negb (String.eqb b (Rules.sld h)))
          = true) as Hp.
  { rewrite Esub, Esld, Hb. apply String.eqb_neq in Hne. now rewrite Hne. }
  destruct (find_first
              (fun b => Str.contains b (Str.lower (Rules.subdomain h))
                        && negb (String.eqb b (Rules.sld h)))
              _ b Hin Hp) as (b' & Hfind & Hin' & _).
  assert (Rules.rule4d url h =
          Some (40%Z, "Brand impersonation detected: '" +:+ b' +:+
                      "' appears in subdomain while parent domain is not '" +:+ b' +:+ "'"))
    as H4.
  { unfold Rules.rule4d, Rules.first_match. now rewrite Hsub, Hfind. }
  assert (40 <= Rules.clamp (Rules.sum (Rules.deltas url h)))%Z as Hscore.
  { pose proof (deltas_nonneg url h) as Hnn.
    rewrite sum_by_rule, H4. cbn [Rules.delta_of]. unfold Rules.clamp. lia. }
  eexists _, b'. split; [reflexivity|]. cbn [reasons score level].
  split; [exact Hin'|].
  split; [|split; [exact Hscore | apply level_of_not_safe; lia]].
  apply in_reasons. do 6 right. left. rewrite H4. now left.
Qed.

End BrandFacts.

(** ** Instances of the conditional properties *)

(** X2 at a padded shortener link on a fresh process. *)
Lemma padded_shortener_is_stored :
  exists result,
    classify_link urllib.urlparse (Str.strip " https://bit.ly/x ") 0 = Return result /\
    url result = Str.strip " https://bit.ly/x " /\
    fst (api_check_link urllib.urlparse
           {| get_json := Return (PyDict {["url" := PyStr " https://bit.ly/x "]}) |}
           0 startup) = Return (jsonify result, 200%Z) /\
    SAMPLES (snd (api_check_link urllib.urlparse
           {| get_json := Return (PyDict {["url" := PyStr " https://bit.ly/x "]}) |}
           0 startup)) =
      (if (1000 <=? length (SAMPLES startup))%nat
       then tl (SAMPLES startup) else SAMPLES startup) ++ [result].
Proof.
  apply (accepted_check_is_stored urllib.urlparse
           {| get_json := Return (PyDict {["url" := PyStr " https://bit.ly/x "]}) |}
           0 startup {["url" := PyStr " https://bit.ly/x "]} " https://bit.ly/x ");
    reflexivity.
Defined.

(** X4 at the same request. *)
Lemma padded_shortener_shows_in_latest :
  exists result earlier,
    classify_link urllib.urlparse (Str.strip " https://bit.ly/x ") 0 = Return result /\
    fst (api_latest (snd (api_check_link urllib.urlparse
           {| get_json := Return (PyDict {["url" := PyStr " https://bit.ly/x "]}) |}
           0 startup))) =
      (PyDict {["samples" := PyList (earlier ++ [jsonify result])]}, 200%Z).
Proof.
  apply (accepted_check_shows_in_latest urllib.urlparse
           {| get_json := Return (PyDict {["url" := PyStr " https://bit.ly/x "]}) |}
           0 startup {["url" := PyStr " https://bit.ly/x "]} " https://bit.ly/x ");
    reflexivity.
Defined.

(** X5 at a body whose [url] is [null]. *)
Lemma null_url_raises :
  api_check_link urllib.urlparse
    {| get_json := Return (PyDict {["url" := PyNone]}) |} 0 startup
  = (Raise AttributeError, startup).
Proof.
  apply (non_string_url_raises urllib.urlparse
           {| get_json := Return (PyDict {["url" := PyNone]}) |} 0 startup
           (PyDict {["url" := PyNone]})); [reflexivity|].
  right. exists {["url" := PyNone]}, PyNone.
  split; [reflexivity|]. split; [reflexivity|]. intros s. discriminate.
Defined.

(** X8 at a padded host name. *)
Lemma padded_host_example :
  parse_hostname urllib.urlparse ("  " +:+ "Example.com" +:+ " ")
  = parse_hostname urllib.urlparse "Example.com".
Proof.
  apply (host_ignores_padding urllib.urlparse "  " "Example.com" " "); reflexivity.
Defined.

(** X10 at a URL with two keywords in mixed case, asked about "login":
    the one reported is "verify", which stands first in the list. *)
Lemma first_listed_keyword_is_reported :
  exists r k' earlier later,
    classify_link urllib.urlparse "https://example.com/Login-Verify" 0 = Return r /\
    PHISH_KEYWORDS = earlier ++ k' :: later /\
    Forall (fun k0 => Str.contains k0 (Str.lower "https://example.com/Login-Verify") = false)
      earlier /\
    In k' PHISH_KEYWORDS /\
    Str.contains k' (Str.lower "https://example.com/Login-Verify") = true /\
    last (reasons r) = Some ("Contains phishing-related keyword: '" +:+ k' +:+ "'") /\
    (15 <= score r)%Z.
Proof.
  apply (keyword_is_always_reported urllib.urlparse
           "https://example.com/Login-Verify" 0 "login").
  - right. left. reflexivity.
  - reflexivity.
Defined.

(** X11 at a page hosted under [github.io]. *)
Lemma github_io_page_is_not_safe :
  exists r eh',
    classify_link urllib.urlparse "https://demo.github.io" 0 = Return r /\
    In eh' SUSPICIOUS_HOSTINGS /\
    In ("Hosted on ephemeral/third-party platform: " +:+ eh') (reasons r) /\
    (35 <= score r)%Z /\ level r <> "SAFE".
Proof.
  apply (ephemeral_host_is_never_safe urllib.urlparse "https://demo.github.io" 0
           "demo.github.io" "github.io").
  - reflexivity.
  - do 7 right. left. reflexivity.
  - right. reflexivity.
Defined.

(** X12 at a two-label host that contains a brand token. *)
Lemma two_label_brand_host_example :
  exists r,
    classify_link urllib.urlparse "https://paypal-secure-login-verify.com" 0 = Return r /\
    forall t, In t (reasons r) ->
      t <> "Very long subdomain (unusually long host label)" /\
      t <> "Multiple hyphens in subdomain (common in phishing hosts)" /\
      t <> "Multi-word / token-rich subdomain (likely not a normal brand hostname)" /\
      forall b, t <> "Brand impersonation detected: '" +:+ b +:+
                     "' appears in subdomain while parent domain is not '" +:+ b +:+ "'".
Proof.
  apply (no_subdomain_reasons_below_three_labels urllib.urlparse
           "https://paypal-secure-login-verify.com" 0 "paypal-secure-login-verify.com").
  - reflexivity.
  - apply le_n.
Defined.

(** X13 at three spaces. *)
Lemma three_spaces_are_safe :
  classify_link urllib.urlparse "   " 0 =
  Return {| url := "   "; host := EmptyString; score := 0; level := "SAFE";
            reasons := []; ts := 0 |}.
Proof. apply (blank_input_is_safe urllib.urlparse "   " 0). reflexivity. Defined.

(** X14 at a dotted quad that is not a valid address. *)
Lemma invalid_octets_are_flagged :
  exists r,
    classify_link urllib.urlparse "http://999.1.22.333/" 0 = Return r /\
    head (reasons r) = Some "Direct IP address used in host (not a normal domain)" /\
    (40 <= score r)%Z /\ level r <> "SAFE".
Proof.
  apply (dotted_quad_host_is_flagged urllib.urlparse "http://999.1.22.333/" 0
           "999" "1" "22" "333"); reflexivity.
Defined.

(** X16 at [example.com/login]. *)
Lemma bare_example_com :
  parse_hostname urllib.urlparse "example.com/login"
  = parse_hostname urllib.urlparse ("https://" +:+ Str.strip "example.com/login") /\
  parse_hostname urllib.urlparse "example.com/login"
  = Return (Str.lower (or_empty (urllib.hostname
      {| urllib.scheme := "https"; urllib.netloc := "example.com";
         urllib.path := "/login"; urllib.params := EmptyString;
         urllib.query := EmptyString; urllib.fragment := EmptyString |}))).
Proof.
  apply (bare_input_parses_as_https urllib.urlparse "example.com/login"); reflexivity.
Defined.

(** X17 at the stacking example, which is rated HIGH on four reasons. *)
Lemma stacking_example_has_four_reasons :
  (score {| url := "https://secure-login-verify.trycloudflare.com";
            host := "secure-login-verify.trycloudflare.com";
            score := 80; level := "HIGH";
            reasons :=
              ["Hosted on ephemeral/third-party platform: trycloudflare.com";
               "Multiple hyphens in subdomain (common in phishing hosts)";
               "Multi-word / token-rich subdomain (likely not a normal brand hostname)";
               "Contains phishing-related keyword: 'verify'"];
            ts := 0 |} <= 40 * Z.of_nat 4)%Z /\ (2 <= 4)%nat.
Proof.
  exact (high_needs_two_reasons urllib.urlparse
           "https://secure-login-verify.trycloudflare.com" 0 _ eq_refl eq_refl).
Defined.

(** X18 at a URL with credentials and a port. *)
Lemma credentials_and_port_are_dropped :
  exists h,
    parse_hostname urllib.urlparse "http://user:pw@Example.com:8080/x" = Return h /\
    Str.has ":" h = false /\ Str.has "@" h = false.
Proof.
  apply (host_has_no_port_or_credentials "http://user:pw@Example.com:8080/x");
    reflexivity.
Defined.

(** X19 at a host that merely ends in [t.com]. *)
Lemma microsoft_com_counts_as_shortener :
  exists r s',
    classify_link urllib.urlparse "https://microsoft.com" 0 = Return r /\
    In s' SHORTENERS /\ Str.contains s' (Str.lower "https://microsoft.com") = true /\
    In ("Uses known link shortener: " +:+ s') (reasons r) /\
    (30 <= score r)%Z.
Proof.
  apply (shortener_substring_is_reported urllib.urlparse "https://microsoft.com" 0 "t.co").
  - do 2 right. left. reflexivity.
  - reflexivity.
Defined.

(** X20 at the impersonation example. *)
Lemma paypal_under_other_domain_is_flagged :
  exists r b',
    classify_link urllib.urlparse "https://paypal.security-check.net/login" 0 = Return r /\
    In b' BRAND_TOKENS /\
    In ("Brand impersonation detected: '" +:+ b' +:+
        "' appears in subdomain while parent domain is not '" +:+ b' +:+ "'")
       (reasons r) /\
    (40 <= score r)%Z /\ level r <> "SAFE".
Proof.
  apply (brand_in_subdomain_is_flagged urllib.urlparse
           "https://paypal.security-check.net/login" 0
           "paypal" "security-check" "net" "paypal").
  - reflexivity.
  - reflexivity.
  - reflexivity.
  - right. left. reflexivity.
  - reflexivity.
  - discriminate.
Defined.
